(** * financial-news-pipeline: the ETL stages and their runner

    A shallow embedding of [scripts/extract_news.py], [scripts/validate_data.py],
    [scripts/transform_sentiment.py], [scripts/load_to_database.py] and
    [scripts/run_pipeline.py].

    Python exceptions are an error monad ([Py.result]); a pandas DataFrame is
    the ordered list of its named columns; the collaborators behind narrow
    interfaces (the HTTP client, pandas' timestamp parser, the VADER analyzer,
    the DuckDB engine, the wall clock, the file system) are Section variables,
    so every theorem holds for whatever they answer.

    Floating point numbers are rationals ([Qc]): the code only compares them
    with literals and divides two row counts, and those comparisons agree with
    the exact ones (see [validate_data.removal_rate] and
    [transform_sentiment.categorize_sentiment]). *)

From stdpp Require Import base option list gmap strings numbers pretty.
From Stdlib Require Import ZArith QArith Qcanon Lia.

Set Warnings "-register-all".
Close Scope Qc_scope.
Close Scope Q_scope.
Open Scope string_scope.
Open Scope list_scope.
Open Scope nat_scope.

(** ** Python values: exceptions, results, JSON *)
Module Py.

(** The exception classes the scripts can meet, each with what [str(e)] shows. *)
Inductive exn : Type :=
| KeyError (key : string)
| TypeError (msg : string)
| ValueError (msg : string)
| RequestException (msg : string)
| OSError (msg : string)
| DatabaseError (msg : string).

Definition str_exn (e : exn) : string :=
  match e with
  | KeyError key => key
  | TypeError msg | ValueError msg | RequestException msg
  | OSError msg | DatabaseError msg => msg
  end.

(** A Python call either returns or raises. *)
Inductive result (A : Type) : Type :=
| Ok (a : A)
| Raise (e : exn).
Arguments Ok {A} a.
Arguments Raise {A} e.

#[global] Instance result_ret : MRet result := λ A a, Ok a.
#[global] Instance result_bind : MBind result := λ A B f m,
  match m with
  | Ok a => f a
  | Raise e => Raise e
  end.

(** What [response.json()] returns. *)
Inductive json : Type :=
| JNull
| JBool (b : bool)
| JNum (x : Qc)
| JStr (s : string)
| JArr (items : list json)
| JObj (fields : list (string * json)).

Definition json_eq_dec : ∀ a b : json, {a = b} + {a ≠ b}.
Proof.
  fix IH 1. intros a b. decide equality.
  - apply Bool.bool_dec.
  - apply Qc_eq_dec.
  - apply String.string_dec.
  - apply (List.list_eq_dec IH).
  - apply List.list_eq_dec. intros [k x] [k' y].
    destruct (String.string_dec k k'); [|right; congruence].
    destruct (IH x y); [left; congruence|right; congruence].
Defined.
#[global] Instance json_eq : EqDecision json := json_eq_dec.

(** [d[key]] on a dict; the first binding of a key stands for the dict's. *)
Fixpoint dict_get (key : string) (fields : list (string * json)) : option json :=
  match fields with
  | [] => None
  | (k, v) :: rest => if String.eqb k key then Some v else dict_get key rest
  end.

(** [data[key]]: a dict answers or raises KeyError, anything else raises
    TypeError (a list or a string indexed by a string, a number, None). *)
Definition getitem (data : json) (key : string) : result json :=
  match data with
  | JObj fields =>
      match dict_get key fields with
      | Some v => Ok v
      | None => Raise (KeyError key)
      end
  | _ => Raise (TypeError "indices must be integers")
  end.

(** [str(n)] for a row count. *)
Definition str_nat (n : nat) : string := pretty (N.of_nat n).

End Py.
Export Py.

(** ** The part of pandas the scripts use *)
Module Pandas.

(** One cell of a table. [Null] is None, NaN and NaT (pandas' [isnull]);
    [Time] a timestamp in microseconds since the epoch, [Date] a calendar date
    in days since the epoch; [Obj] any other object a JSON record can hold (a
    dict, a list, a bool). *)
Inductive cell : Type :=
| Null
| Str (s : string)
| Num (x : Qc)
| Time (t : Z)
| Date (d : Z)
| Obj (j : json).

#[global] Instance cell_eq : EqDecision cell.
Proof. solve_decision. Defined.

Definition cell_of_json (j : json) : cell :=
  match j with
  | JNull => Null
  | JStr s => Str s
  | JNum x => Num x
  | _ => Obj j
  end.

Definition isnull (c : cell) : bool :=
  match c with Null => true | _ => false end.

Definition notnull (c : cell) : bool := negb (isnull c).

(** [Series.str.len()] on an object column: the length of a string or of a
    container, NaN ([None]) for everything else. *)
Definition str_len (c : cell) : option nat :=
  match c with
  | Str s => Some (String.length s)
  | Obj (JArr items) => Some (length items)
  | Obj (JObj fields) => Some (length fields)
  | _ => None
  end.

(** [s.str.len() < n] and [s.str.len() >= n], cell by cell: a comparison
    with NaN is False. *)
Definition len_lt (n : nat) (c : cell) : bool :=
  match str_len c with Some k => k <? n | None => false end.

Definition len_ge (n : nat) (c : cell) : bool :=
  match str_len c with Some k => n <=? k | None => false end.

Abbreviation Series := (list cell).

(** A DataFrame: its columns in order, each a label and a Series. The number
    of rows is the length of the columns; a frame without columns has none. *)
Abbreviation DataFrame := (list (string * list cell)).

Definition columns (df : DataFrame) : list string := df.*1.

Fixpoint column (c : string) (df : DataFrame) : option Series :=
  match df with
  | [] => None
  | (k, s) :: rest => if String.eqb k c then Some s else column c rest
  end.

(** [c in df.columns] *)
Definition has_column (c : string) (df : DataFrame) : bool :=
  match column c df with Some _ => true | None => false end.

(** [df[c]]: KeyError for a label that is no column. *)
Definition getcol (c : string) (df : DataFrame) : result Series :=
  match column c df with
  | Some s => Ok s
  | None => Raise (KeyError c)
  end.

(** [len(df)] *)
Definition len (df : DataFrame) : nat :=
  match df with
  | [] => 0
  | (_, s) :: _ => length s
  end.

(** [df.empty]: some axis has length zero. *)
Definition empty (df : DataFrame) : bool :=
  bool_decide (columns df = []) || (len df =? 0).

(** Every column is as long as the frame. *)
Definition rectangular (df : DataFrame) : bool :=
  forallb (λ kv, length kv.2 =? len df) df.

(** [df[c] = s] in place: the column is replaced where it stands, a new
    label is appended. *)
Fixpoint setitem (c : string) (s : Series) (df : DataFrame) : DataFrame :=
  match df with
  | [] => [(c, s)]
  | (k, old) :: rest =>
      if String.eqb k c then (k, s) :: rest else (k, old) :: setitem c s rest
  end.

(** Boolean indexing of one Series: keep the cells whose flag is True. *)
Fixpoint mask {A : Type} (flags : list bool) (s : list A) : list A :=
  match flags, s with
  | b :: flags', x :: s' => if b then x :: mask flags' s' else mask flags' s'
  | _, _ => []
  end.

(** [df[flags]]: the rows whose flag is True, in every column. *)
Definition select (flags : list bool) (df : DataFrame) : DataFrame :=
  prod_map id (mask flags) <$> df.

(** [flags.sum()] *)
Definition count_true (flags : list bool) : nat := length (filter Is_true flags).

(** The rows of some columns, side by side. *)
Fixpoint zip_rows (n : nat) (cols : list Series) : list (list cell) :=
  match cols with
  | [] => replicate n []
  | s :: cols' => zip_with cons s (zip_rows n cols')
  end.

(** The rows of [df[subset]]; KeyError when a label of [subset] is missing. *)
Definition subset_rows (subset : list string) (df : DataFrame) : result (list (list cell)) :=
  cols ← mapM (λ c, getcol c df) subset;
  Ok (zip_rows (len df) cols).

(** A row is flagged when an earlier row has the same key; nulls are equal
    to each other here, as in pandas. *)
Fixpoint duplicated_from (seen keys : list (list cell)) : list bool :=
  match keys with
  | [] => []
  | k :: keys' => bool_decide (k ∈ seen) :: duplicated_from (k :: seen) keys'
  end.

(** [df.duplicated(subset=subset)] *)
Definition duplicated (subset : list string) (df : DataFrame) : result (list bool) :=
  keys ← subset_rows subset df;
  Ok (duplicated_from [] keys).

(** [df.drop_duplicates(subset=subset)], keeping the first occurrence. *)
Definition drop_duplicates (subset : list string) (df : DataFrame) : result DataFrame :=
  dup ← duplicated subset df;
  Ok (select (negb <$> dup) df).

(** [df.dropna(subset=subset)]: drop the rows with a null in one of the
    columns of [subset]. *)
Definition dropna (subset : list string) (df : DataFrame) : result DataFrame :=
  keys ← subset_rows subset df;
  Ok (select (forallb notnull <$> keys) df).

(** The cell of column [c] in row [i], when the frame has both. *)
Definition cell_at (df : DataFrame) (c : string) (i : nat) : option cell :=
  column c df ≫= (.!! i).

Section to_datetime.
(** pandas' scalar conversion to a timestamp: [Some t] for what it can
    read (a date string, an epoch number), [None] where it raises. *)
Variable parse_datetime : cell → option Z.

Definition to_datetime_cell (c : cell) : result cell :=
  match c with
  | Null => Ok Null
  | Time t => Ok (Time t)
  | _ =>
      match parse_datetime c with
      | Some t => Ok (Time t)
      | None => Raise (ValueError "Unknown datetime string format")
      end
  end.

(** [pd.to_datetime(s)] and [pd.to_datetime(s, utc=True)]: timestamps are
    kept as UTC instants, so the two agree here. *)
Definition to_datetime (s : Series) : result Series := mapM to_datetime_cell s.
End to_datetime.

(** The timestamps of a Series, nulls skipped. *)
Definition timestamps (s : Series) : list Z :=
  omap (λ c, match c with Time t => Some t | _ => None end) s.

(** [s.min()] and [s.max()] of a timestamp column: NaT ([None]) when every
    cell is null. *)
Definition series_min (s : Series) : option Z :=
  match timestamps s with
  | [] => None
  | t :: ts => Some (foldr Z.min t ts)
  end.

Definition series_max (s : Series) : option Z :=
  match timestamps s with
  | [] => None
  | t :: ts => Some (foldr Z.max t ts)
  end.

End Pandas.
Export Pandas.

(** ** scripts/validate_data.py *)
Module validate_data.

(** The sub-report of check 3. *)
Record freshness_report : Type := {
  oldest : Z;
  newest : Z;
  span_days : Z
}.

(** The sub-report of check 4. *)
Record content_report : Type := {
  short_titles : nat;
  short_descriptions : nat
}.

(** [quality_report['checks']] once the four checks are through; the
    [freshness] key is set by check 3 alone. *)
Record checks_report : Type := {
  missing_values : gmap string nat;
  duplicates : nat;
  freshness : option freshness_report;
  content_quality : content_report
}.

(** The dict [validate_news_data] returns; a key the dict may lack is an
    option. *)
Record quality_report : Type := {
  status : string;
  reason : option string;
  timestamp : option Z;
  initial_records : option nat;
  checks : option checks_report;
  final_records : option nat;
  removed_records : option Z;
  removal_percentage : option Qc
}.

#[global] Instance freshness_report_eq : EqDecision freshness_report.
Proof. solve_decision. Defined.
#[global] Instance content_report_eq : EqDecision content_report.
Proof. solve_decision. Defined.

Definition critical_fields : list string :=
  ["title"; "description"; "url"; "publishedAt"].

Definition microseconds_per_day : Z := 86400000000.

(** Check 1 (lines 35-52): the nulls of each critical field, the whole row
    count for a field that is no column. *)
Definition check_missing (df : DataFrame) : gmap string nat :=
  foldl (λ missing_counts field,
           match column field df with
           | Some s => <[field := count_true (isnull <$> s)]> missing_counts
           | None => <[field := len df]> missing_counts
           end)
        ∅ critical_fields.

(** Check 4 (lines 86-98). *)
Definition check_content (df : DataFrame) : content_report :=
  {| short_titles :=
       match column "title" df with
       | Some s => count_true (len_lt 10 <$> s)
       | None => 0
       end;
     short_descriptions :=
       match column "description" df with
       | Some s => count_true (len_lt 20 <$> s)
       | None => 0
       end |}.

(** [removed / initial_count * 100 if initial_count > 0 else 0] (line 131).
    In binary64 the quotient of two row counts below 2^52 and its product
    with 100 compare with 50 as the exact values do. *)
Definition removal_rate (removed : Z) (initial_count : nat) : Qc :=
  if 0 <? initial_count
  then (Qc_of_Z removed / Qc_of_Z (Z.of_nat initial_count) * Qc_of_Z 100)%Qc
  else Qc_of_Z 0.

(** The report of the early return (line 23). *)
Definition empty_report : quality_report :=
  {| status := "FAILED"; reason := Some "Empty dataframe";
     timestamp := None; initial_records := None; checks := None;
     final_records := None; removed_records := None;
     removal_percentage := None |}.

Section validate.
Variable parse_datetime : cell → option Z.
(** [datetime.now()], in microseconds. *)
Variable now : Z.

(** Check 3 (lines 64-85), run on the caller's frame: line 67 stores the
    parsed column back into [df]. The frame after the check comes first.
    When every timestamp is null, [min()] is NaT and [NaT.strftime] raises
    (line 77). *)
Definition check_freshness (df : DataFrame)
  : DataFrame * result (option freshness_report) :=
  match column "publishedAt" df with
  | None => (df, Ok None)
  | Some published =>
      match to_datetime parse_datetime published with
      | Raise e => (df, Raise e)
      | Ok parsed =>
          let df := setitem "publishedAt" parsed df in
          match series_min parsed, series_max parsed with
          | Some oldest_article, Some newest_article =>
              (df, Ok (Some {| oldest := oldest_article;
                               newest := newest_article;
                               span_days := (now - oldest_article) `div` microseconds_per_day |}))
          | _, _ => (df, Raise (ValueError "NaTType does not support strftime"))
          end
      end
  end.

(** Lines 35-103: the four checks. Check 3 sits in the [else] branch of
    the duplicate test (lines 59-85). *)
Definition run_checks (df : DataFrame) : DataFrame * result checks_report :=
  let missing_counts := check_missing df in
  match duplicated ["title"; "publishedAt"] df with
  | Raise e => (df, Raise e)
  | Ok flags =>
      let duplicates := count_true flags in
      let '(df, fresh) :=
        if 0 <? duplicates then (df, Ok None) else check_freshness df in
      match fresh with
      | Raise e => (df, Raise e)
      | Ok fresh =>
          (df, Ok {| missing_values := missing_counts;
                     duplicates := duplicates;
                     freshness := fresh;
                     content_quality := check_content df |})
      end
  end.

(** Lines 109-124: the cleaning, on a copy of the frame. *)
Definition clean (df : DataFrame) : result DataFrame :=
  let df_clean := df in
  df_clean ← dropna ["title"; "description"] df_clean;
  df_clean ← drop_duplicates ["title"; "publishedAt"] df_clean;
  let df_clean :=
    match column "title" df_clean with
    | Some s => select (len_ge 10 <$> s) df_clean
    | None => df_clean
    end in
  let df_clean :=
    match column "description" df_clean with
    | Some s => select (len_ge 20 <$> s) df_clean
    | None => df_clean
    end in
  Ok df_clean.

(** Lines 126-147: the counts and the status. *)
Definition summarize (initial_count : nat) (checked : checks_report)
    (df_clean : DataFrame) : quality_report :=
  let final_count := len df_clean in
  let removed := (Z.of_nat initial_count - Z.of_nat final_count)%Z in
  let percentage := removal_rate removed initial_count in
  let '(status, reason) :=
    if final_count =? 0 then ("FAILED", Some "No records after cleaning")
    else if bool_decide (Qc_of_Z 50 < percentage)%Qc
         then ("WARNING", Some "High removal rate")
         else ("PASSED", None) in
  {| status := status; reason := reason;
     timestamp := Some now; initial_records := Some initial_count;
     checks := Some checked;
     final_records := Some final_count; removed_records := Some removed;
     removal_percentage := Some percentage |}.

(** [validate_news_data(df)]: the caller's frame after the call, and what
    the call returns or raises. *)
Definition validate_news_data (df : DataFrame)
  : DataFrame * result (DataFrame * quality_report) :=
  if empty df then (df, Ok (df, empty_report))
  else
    let initial_count := len df in
    let '(df, checked) := run_checks df in
    match checked with
    | Raise e => (df, Raise e)
    | Ok checked =>
        match clean df with
        | Raise e => (df, Raise e)
        | Ok df_clean => (df, Ok (df_clean, summarize initial_count checked df_clean))
        end
    end.
End validate.

End validate_data.

(** ** scripts/transform_sentiment.py *)
Module transform_sentiment.

(** What [analyzer.polarity_scores(text)] returns. *)
Record scores : Type := {
  compound : Qc;
  pos : Qc;
  neg : Qc;
  neu : Qc
}.

(** The two literals of [categorize_sentiment]. A binary64 [x] is at least
    the literal [0.05] exactly when it is at least 1/20 (the literal is the
    double next above 1/20), and likewise for [-0.05]. *)
Definition positive_threshold : Qc := Q2Qc (5 # 100).
Definition negative_threshold : Qc := Q2Qc (- 5 # 100).

(** Lines 53-59. *)
Definition categorize_sentiment (compound_score : Qc) : string :=
  if bool_decide (positive_threshold ≤ compound_score)%Qc then "positive"
  else if bool_decide (compound_score ≤ negative_threshold)%Qc then "negative"
  else "neutral".

(** [Series.apply(categorize_sentiment)], cell by cell: both comparisons
    are False on NaN, and a cell that is no number cannot be compared. *)
Definition apply_categorize (c : cell) : result cell :=
  match c with
  | Num x => Ok (Str (categorize_sentiment x))
  | Null => Ok (Str "neutral")
  | _ => Raise (TypeError "'>=' not supported between instances")
  end.

Definition day_names : list string :=
  ["Monday"; "Tuesday"; "Wednesday"; "Thursday"; "Friday"; "Saturday"; "Sunday"].

Definition microseconds_per_hour : Z := 3600000000.

(** [.dt.date], [.dt.hour] and [.dt.day_name()] of a timestamp cell; NaT
    gives a null. The first of January 1970 was a Thursday. *)
Definition dt_date (c : cell) : cell :=
  match c with
  | Time t => Date (t `div` validate_data.microseconds_per_day)
  | _ => Null
  end.

Definition dt_hour (c : cell) : cell :=
  match c with
  | Time t => Num (Qc_of_Z ((t `div` microseconds_per_hour) `mod` 24))
  | _ => Null
  end.

Definition dt_day_name (c : cell) : cell :=
  match c with
  | Time t =>
      let weekday := ((t `div` validate_data.microseconds_per_day + 3) `mod` 7)%Z in
      from_option Str Null (day_names !! Z.to_nat weekday)
  | _ => Null
  end.

Section transform.
(** Python's [str(x)] on a cell. *)
Variable py_str : cell → string.
(** VADER's [polarity_scores]. *)
Variable polarity_scores : string → scores.
Variable parse_datetime : cell → option Z.

(** [row.get(label, '')] for every row: the column, or empty strings. *)
Definition row_get (label : string) (df : DataFrame) : Series :=
  from_option id (replicate (len df) (Str "")) (column label df).

(** Lines 32-47: the text of every row and its scores. *)
Definition analyze_articles (df : DataFrame) : list scores :=
  zip_with (λ title description,
              polarity_scores (py_str title +:+ " " +:+ py_str description))
           (row_get "title" df) (row_get "description" df).

(** Lines 66-70. *)
Definition add_date_features (df : DataFrame) : result DataFrame :=
  match column "publishedAt" df with
  | None => Ok df
  | Some published =>
      parsed ← to_datetime parse_datetime published;
      let df := setitem "publishedAt" parsed df in
      let df := setitem "date" (dt_date <$> parsed) df in
      let df := setitem "hour" (dt_hour <$> parsed) df in
      Ok (setitem "day_of_week" (dt_day_name <$> parsed) df)
  end.

(** [add_sentiment_analysis(df)]. The four score columns are appended
    (line 50); when the input already has a [sentiment_compound] column,
    line 61 selects two columns at once and the comparison of line 54
    raises on a whole Series. The printed statistics (lines 72-90) leave
    the frame as it is. *)
Definition add_sentiment_analysis (df : DataFrame) : result DataFrame :=
  if empty df then Ok df
  else
    let analyzed := analyze_articles df in
    let sentiment_df : DataFrame :=
      [("sentiment_compound", (Num ∘ compound) <$> analyzed);
       ("sentiment_positive", (Num ∘ pos) <$> analyzed);
       ("sentiment_negative", (Num ∘ neg) <$> analyzed);
       ("sentiment_neutral", (Num ∘ neu) <$> analyzed)] in
    if has_column "sentiment_compound" df
    then Raise (ValueError "The truth value of a Series is ambiguous")
    else
      let df_with_sentiment := df ++ sentiment_df in
      compound_column ← getcol "sentiment_compound" df_with_sentiment;
      labels ← mapM apply_categorize compound_column;
      let df_with_sentiment := setitem "sentiment_label" labels df_with_sentiment in
      add_date_features df_with_sentiment.
End transform.

End transform_sentiment.

(** ** scripts/extract_news.py *)
Module extract_news.

(** A response of the HTTP client. [status_error] is the HTTPError that
    [raise_for_status()] raises for an error status (requests: 4xx and 5xx),
    [body] what [response.json()] returns or raises. *)
Record response : Type := {
  status_error : option string;
  body : result json
}.

Definition url : string := "https://newsapi.org/v2/everything".

(** Labels in the order they first appear. *)
Fixpoint first_seen (seen labels : list string) : list string :=
  match labels with
  | [] => []
  | k :: rest =>
      if bool_decide (k ∈ seen) then first_seen seen rest
      else k :: first_seen (k :: seen) rest
  end.

(** [pd.DataFrame(records)] for a list of dicts: one column per key, a
    null where a record lacks the key. *)
Definition from_records (records : list (list (string * json))) : DataFrame :=
  (λ k, (k, (λ r, from_option cell_of_json Null (dict_get k r)) <$> records))
    <$> first_seen [] (records ≫= (λ r, r.*1)).

Definition as_record (j : json) : option (list (string * json)) :=
  match j with JObj fields => Some fields | _ => None end.

(** The lambda of line 70. *)
Definition source_name (x : cell) : cell :=
  match x with
  | Obj (JObj fields) => from_option cell_of_json (Str "Unknown") (dict_get "name" fields)
  | _ => Str "Unknown"
  end.

Section extract.
(** [requests.get(url, params=params, timeout=10)]: a response, or a
    RequestException (no connection, a timeout). *)
Variable requests_get : string → list (string * string) → result response.
(** [pd.DataFrame(x)] when [x] is no list of dicts: pandas builds some
    frame or raises. *)
Variable DataFrame_other : json → result DataFrame.
Variable parse_datetime : cell → option Z.
(** [strftime('%Y-%m-%d')] *)
Variable strftime : Z → string.
(** [os.getenv('NEWS_API_KEY')] *)
Variable API_KEY : option string.
Variable now : Z.

Definition DataFrame_of (articles : json) : result DataFrame :=
  match articles with
  | JNull => Ok []
  | JArr items =>
      match mapM as_record items with
      | Some records => Ok (from_records records)
      | None => DataFrame_other articles
      end
  | _ => DataFrame_other articles
  end.

Definition request_params (keywords : list string) (days_back page_size : nat)
  : list (string * string) :=
  let to_date := now in
  let from_date := (to_date - Z.of_nat days_back * validate_data.microseconds_per_day)%Z in
  [("q", String.concat " OR " keywords);
   ("from", strftime from_date);
   ("to", strftime to_date);
   ("language", "en");
   ("sortBy", "publishedAt");
   ("pageSize", str_nat page_size)]
  ++ from_option (λ key, [("apiKey", key)]) [] API_KEY.

(** Lines 54-86, the body of the [try]. *)
Definition fetch (keywords : list string) (days_back page_size : nat) : result DataFrame :=
  response ← requests_get url (request_params keywords days_back page_size);
  _ ← match status_error response with
      | Some msg => Raise (RequestException msg)
      | None => Ok ()
      end;
  data ← body response;
  api_status ← getitem data "status";
  if bool_decide (api_status = JStr "ok") then
    articles ← getitem data "articles";
    df ← DataFrame_of articles;
    if negb (empty df) then
      source ← getcol "source" df;
      let df := setitem "source_name" (source_name <$> source) df in
      published ← getcol "publishedAt" df;
      parsed ← to_datetime parse_datetime published;
      let df := setitem "publishedAt" parsed df in
      let df := setitem "extracted_at" (replicate (len df) (Time now)) df in
      Ok df
    else Ok []
  else Ok [].

(** [extract_financial_news(keywords, days_back, page_size)]: both
    handlers (lines 88-93) return [pd.DataFrame()]. *)
Definition extract_financial_news (keywords : list string) (days_back page_size : nat)
  : result DataFrame :=
  match fetch keywords days_back page_size with
  | Ok df => Ok df
  | Raise (RequestException _) => Ok []
  | Raise _ => Ok []
  end.
End extract.

End extract_news.

(** ** scripts/load_to_database.py *)
Module load_to_database.

(** The thirteen columns of [news_sentiment], in the order of the CREATE
    TABLE statement (lines 35-51) and of the list of lines 67-72. *)
Definition table_columns : list string :=
  ["title"; "description"; "url"; "source_name"; "publishedAt"; "date"; "hour";
   "sentiment_compound"; "sentiment_positive"; "sentiment_negative";
   "sentiment_neutral"; "sentiment_label"; "extracted_at"].

(** The database as the loader sees it: the rows of [news_sentiment], or
    [None] while the table does not exist. *)
Abbreviation database := (option (list (list cell))).

(** [df[labels]] for labels that are columns of [df]. *)
Definition project (labels : list string) (df : DataFrame) : DataFrame :=
  omap (λ c, pair c <$> column c df) labels.

Section load.
Variable parse_datetime : cell → option Z.
(** DuckDB's cast of the values of one row to the types of the table's
    columns; [None] when it raises a conversion error. *)
Variable cast_row : list cell → option (list cell).
Variable now : Z.

(** [INSERT INTO news_sentiment SELECT * FROM df_to_load] (line 81):
    columns are matched by position, so the frame needs thirteen. *)
Definition insert_select (df_to_load : DataFrame) (rows : list (list cell))
  : result (list (list cell)) :=
  if length df_to_load =? length table_columns then
    match mapM cast_row (zip_rows (len df_to_load) df_to_load.*2) with
    | Some new_rows => Ok (rows ++ new_rows)
    | None => Raise (DatabaseError "Conversion Error")
    end
  else Raise (DatabaseError "Binder Error: table news_sentiment has 13 columns").

(** Lines 56-76. *)
Definition prepare (df : DataFrame) : result DataFrame :=
  let df_to_load := df in
  let df_to_load :=
    if has_column "extracted_at" df_to_load then df_to_load
    else setitem "extracted_at" (replicate (len df_to_load) (Time now)) df_to_load in
  df_to_load ←
    match column "date" df_to_load with
    | Some dates =>
        parsed ← to_datetime parse_datetime dates;
        Ok (setitem "date" (transform_sentiment.dt_date <$> parsed) df_to_load)
    | None => Ok df_to_load
    end;
  Ok (project table_columns df_to_load).

(** [load_to_duckdb(df)] on a database the connection opens: the
    database after the call and the boolean returned. DROP TABLE and
    CREATE TABLE (lines 32-51) are committed before anything can raise;
    the handler of lines 111-116 returns False. *)
Definition load_to_duckdb (df : DataFrame) (db : database) : database * bool :=
  if empty df then (db, false)
  else
    let db : database := None in
    let db : database := Some [] in
    match df_to_load ← prepare df; insert_select df_to_load [] with
    | Ok rows => (Some rows, true)
    | Raise _ => (db, false)
    end.
End load.

End load_to_database.

(** ** scripts/run_pipeline.py *)
Module run_pipeline.

(** The dict [pipeline_status]; [end_time] is set by the summary only. *)
Record pipeline_status : Type := {
  start_time : Z;
  steps : gmap string string;
  overall_status : string;
  end_time : option Z
}.

(** The functions of the other scripts that the runner calls. *)
Inductive call : Type :=
| Call_extract_financial_news
| Call_save_raw_data
| Call_validate_news_data
| Call_save_quality_report
| Call_add_sentiment_analysis
| Call_save_transformed_data
| Call_load_to_duckdb.

#[global] Instance call_eq : EqDecision call.
Proof. solve_decision. Defined.

(** A run keeps the log of the calls it has made so far. *)
Definition run (A : Type) : Type := list call → list call * A.

#[global] Instance run_ret : MRet run := λ A a log, (log, a).
#[global] Instance run_bind : MBind run := λ A B f m log,
  let '(log, a) := m log in f a log.

(** Make the call [c], which answers [answer]. *)
Definition invoke {A : Type} (c : call) (answer : A) : run A :=
  λ log, (log ++ [c], answer).

(** [pipeline_status['steps'][step] = outcome] *)
Definition record (step outcome : string) (st : pipeline_status) : pipeline_status :=
  {| start_time := start_time st;
     steps := <[step := outcome]> (steps st);
     overall_status := overall_status st;
     end_time := end_time st |}.

Definition set_overall (overall : string) (st : pipeline_status) : pipeline_status :=
  {| start_time := start_time st;
     steps := steps st;
     overall_status := overall;
     end_time := end_time st |}.

(** The two assignments before each early [return pipeline_status]. *)
Definition fail (step outcome : string) (st : pipeline_status) : pipeline_status :=
  record step outcome (set_overall "FAILED" st).

(** The two assignments of lines 108-109 and 115-116. *)
Definition warn (step outcome : string) (st : pipeline_status) : pipeline_status :=
  record step outcome (set_overall "WARNING" st).

Section pipeline.
(** The stages as the runner meets them: each returns or raises. *)
Variable extract_financial_news : nat → nat → result DataFrame.
Variable save_raw_data : DataFrame → result ().
Variable validate_news_data : DataFrame → result (DataFrame * validate_data.quality_report).
Variable save_quality_report : validate_data.quality_report → result ().
Variable add_sentiment_analysis : DataFrame → result DataFrame.
Variable save_transformed_data : DataFrame → result ().
(** [f'{df_final["sentiment_compound"].mean():.3f}'] (lines 89-90) *)
Variable format_mean : DataFrame → result string.
Variable load_to_duckdb : DataFrame → result bool.
(** [datetime.now()] at lines 23 and 119. *)
Variable started finished : Z.

(** Step 4 and the summary (lines 103-141). *)
Definition load_and_finish (df_final : DataFrame) (st : pipeline_status)
  : run pipeline_status :=
  loaded ← invoke Call_load_to_duckdb (load_to_duckdb df_final);
  let st :=
    match loaded with
    | Ok success =>
        if negb success then warn "load" "FAILED" st
        else record "load"
               ("SUCCESS - " +:+ str_nat (len df_final) +:+ " records loaded") st
    | Raise e => warn "load" ("FAILED - " +:+ str_exn e) st
    end in
  mret {| start_time := start_time st; steps := steps st;
          overall_status := overall_status st; end_time := Some finished |}.

(** Step 3 (lines 79-96), then the rest. *)
Definition transform_and_after (df_clean : DataFrame) (st : pipeline_status)
  : run pipeline_status :=
  transformed ← invoke Call_add_sentiment_analysis (add_sentiment_analysis df_clean);
  match transformed with
  | Raise e => mret (fail "transform" ("FAILED - " +:+ str_exn e) st)
  | Ok df_final =>
      if empty df_final then mret (fail "transform" "FAILED" st)
      else
        saved ← invoke Call_save_transformed_data (save_transformed_data df_final);
        match saved ≫= (λ _, format_mean df_final) with
        | Raise e => mret (fail "transform" ("FAILED - " +:+ str_exn e) st)
        | Ok avg_sentiment =>
            load_and_finish df_final
              (record "transform" ("SUCCESS - Avg sentiment: " +:+ avg_sentiment) st)
        end
  end.

(** Step 2 (lines 56-72), then the rest. *)
Definition validate_and_after (df_raw : DataFrame) (st : pipeline_status)
  : run pipeline_status :=
  validated ← invoke Call_validate_news_data (validate_news_data df_raw);
  match validated with
  | Raise e => mret (fail "validate" ("FAILED - " +:+ str_exn e) st)
  | Ok (df_clean, quality_report) =>
      if empty df_clean then mret (fail "validate" "FAILED - No clean data" st)
      else
        saved ← invoke Call_save_quality_report (save_quality_report quality_report);
        match saved with
        | Raise e => mret (fail "validate" ("FAILED - " +:+ str_exn e) st)
        | Ok _ =>
            transform_and_after df_clean
              (record "validate"
                 ("SUCCESS - " +:+ str_nat (len df_clean) +:+ " clean records") st)
        end
  end.

(** [run_full_pipeline(days_back, page_size)]: step 1 (lines 33-49), then
    the rest. *)
Definition run_full_pipeline (days_back page_size : nat) : run pipeline_status :=
  let st := {| start_time := started; steps := ∅;
               overall_status := "SUCCESS"; end_time := None |} in
  extracted ← invoke Call_extract_financial_news
                (extract_financial_news days_back page_size);
  match extracted with
  | Raise e => mret (fail "extract" ("FAILED - " +:+ str_exn e) st)
  | Ok df_raw =>
      if empty df_raw then mret (fail "extract" "FAILED - No data" st)
      else
        saved ← invoke Call_save_raw_data (save_raw_data df_raw);
        match saved with
        | Raise e => mret (fail "extract" ("FAILED - " +:+ str_exn e) st)
        | Ok _ =>
            validate_and_after df_raw
              (record "extract"
                 ("SUCCESS - " +:+ str_nat (len df_raw) +:+ " articles") st)
        end
  end.
End pipeline.

End run_pipeline.


(** ** scripts/validate_data.py: the report file *)
Module validate_data_report.
Import validate_data.

(** The files under [../data], each path with its text. *)
Abbreviation files := (gmap string string).

(** The line feed. *)
Definition nl : string := String (Ascii.ascii_of_nat 10) "".

(** [report[name]]: KeyError for a key the dict lacks. *)
Definition report_key {A : Type} (name : string) (field : option A) : result A :=
  match field with
  | Some a => Ok a
  | None => Raise (KeyError name)
  end.

(** The two lines every report file starts with (lines 159-160). *)
Definition report_header : string :=
  "DATA QUALITY REPORT" +:+ nl +:+ String.concat "" (replicate 60 "=") +:+ nl +:+ nl.

(** Write the texts in turn; the first one that raises ends the writing,
    and the text written so far stays in the file. *)
Fixpoint write_all (writes : list (result string)) (text : string) : string * result () :=
  match writes with
  | [] => (text, Ok ())
  | Ok s :: rest => write_all rest (text +:+ s)
  | Raise e :: _ => (text, Raise e)
  end.

Section save.
(** [open(filepath, 'w')]: the OSError it raises for a path, if any. *)
Variable open_error : string → option string.
(** How the values of the report print inside an f-string. *)
Variable isoformat : Z → string.
Variable format_1f : Qc → string.
Variable str_missing : gmap string nat → string.
Variable str_freshness : freshness_report → string.
Variable str_content : content_report → string.

(** [report['checks'].items()] in the order the checks filled the dict,
    each value as [str] shows it. *)
Definition checks_items (checked : checks_report) : list (string * string) :=
  [("missing_values", str_missing (missing_values checked));
   ("duplicates", str_nat (duplicates checked))]
  ++ from_option (λ fresh, [("freshness", str_freshness fresh)]) [] (freshness checked)
  ++ [("content_quality", str_content (content_quality checked))].

(** The texts of lines 159-169, each as its f-string evaluates. *)
Definition report_writes (report : quality_report) : list (result string) :=
  [Ok ("DATA QUALITY REPORT" +:+ nl);
   Ok (String.concat "" (replicate 60 "=") +:+ nl +:+ nl);
   (t ← report_key "timestamp" (timestamp report);
    Ok ("Timestamp: " +:+ isoformat t +:+ nl));
   Ok ("Status: " +:+ status report +:+ nl +:+ nl);
   (n ← report_key "initial_records" (initial_records report);
    Ok ("Initial Records: " +:+ str_nat n +:+ nl));
   (n ← report_key "final_records" (final_records report);
    Ok ("Final Records: " +:+ str_nat n +:+ nl));
   (removed ← report_key "removed_records" (removed_records report);
    percentage ← report_key "removal_percentage" (removal_percentage report);
    Ok ("Removed: " +:+ pretty removed +:+ " (" +:+ format_1f percentage +:+ "%)"
        +:+ nl +:+ nl));
   Ok ("CHECKS:" +:+ nl)]
  ++ match report_key "checks" (checks report) with
     | Raise e => [Raise e]
     | Ok checked =>
         checks_items checked
           ≫= (λ '(check_name, check_data),
                 [Ok (nl +:+ check_name +:+ ":" +:+ nl);
                  Ok ("  " +:+ check_data +:+ nl)])
     end.

(** [save_quality_report(report, filename)]: the files after the call, and
    whether the call returns or raises. The file is created, or emptied,
    when it is opened. *)
Definition save_quality_report (report : quality_report) (filename : string)
    (fs : files) : files * result () :=
  let filepath := "../data/" +:+ filename in
  match open_error filepath with
  | Some msg => (fs, Raise (OSError msg))
  | None =>
      let '(text, outcome) := write_all (report_writes report) "" in
      (<[filepath := text]> fs, outcome)
  end.
End save.

End validate_data_report.


(** ** Sample data for the worked examples *)
Module Samples.

(** A parser that reads three ISO timestamps, and a date as its midnight. *)
Definition sample_parse (c : cell) : option Z :=
  match c with
  | Str "2024-01-01T00:00:00Z" => Some 1704067200000000%Z
  | Str "2024-01-02T12:30:00Z" => Some 1704198600000000%Z
  | Str "2024-01-03T08:00:00Z" => Some 1704268800000000%Z
  | Date d => Some (d * validate_data.microseconds_per_day)%Z
  | _ => None
  end.

(** Noon of 2024-01-08, as [datetime.now()]. *)
Definition sample_now : Z := 1704715200000000.

(** Ten raw articles: rows 2 and 4 repeat the title and timestamp of rows 0
    and 1, and row 5 has a title of five characters. *)
Definition sample_raw : DataFrame :=
  [("title",
    [Str "Stocks soar to record highs"; Str "Fed holds interest rates steady";
     Str "Stocks soar to record highs"; Str "Oil prices slide on demand fears";
     Str "Fed holds interest rates steady"; Str "Rally";
     Str "Tech shares lead market rebound"; Str "Economy adds jobs in December";
     Str "Bond yields climb after auction"; Str "Retail sales beat expectations"]);
   ("description",
    [Str "Markets rallied today on strong earnings";
     Str "The central bank kept its benchmark rate unchanged";
     Str "Markets rallied today on strong earnings";
     Str "Crude fell as traders weighed a weaker outlook";
     Str "The central bank kept its benchmark rate unchanged";
     Str "A short note about the market rally today";
     Str "Large technology companies recovered their losses";
     Str "Employers kept hiring at a steady pace last month";
     Str "Treasury yields rose after a weak debt auction";
     Str "Consumers spent more than forecast over the holidays"]);
   ("url",
    [Str "https://example.com/1"; Str "https://example.com/2";
     Str "https://example.com/1"; Str "https://example.com/4";
     Str "https://example.com/2"; Str "https://example.com/6";
     Str "https://example.com/7"; Str "https://example.com/8";
     Str "https://example.com/9"; Str "https://example.com/10"]);
   ("publishedAt",
    [Str "2024-01-01T00:00:00Z"; Str "2024-01-02T12:30:00Z";
     Str "2024-01-01T00:00:00Z"; Str "2024-01-03T08:00:00Z";
     Str "2024-01-02T12:30:00Z"; Str "2024-01-03T08:00:00Z";
     Str "2024-01-01T00:00:00Z"; Str "2024-01-02T12:30:00Z";
     Str "2024-01-03T08:00:00Z"; Str "2024-01-01T00:00:00Z"])].

(** Two articles as read back from a CSV file: timestamps are strings. *)
Definition sample_unparsed : DataFrame :=
  [("title", [Str "Stocks soar to record highs"; Str "Fed holds interest rates steady"]);
   ("description",
    [Str "Markets rallied today on strong earnings";
     Str "The central bank kept its benchmark rate unchanged"]);
   ("url", [Str "https://example.com/1"; Str "https://example.com/2"]);
   ("publishedAt", [Str "2024-01-01T00:00:00Z"; Str "2024-01-02T12:30:00Z"])].

(** Five articles, three of them with a title too short to keep. *)
Definition sample_mostly_junk : DataFrame :=
  [("title",
    [Str "Stocks soar to record highs"; Str "Rally"; Str "Update";
     Str "Fed holds interest rates steady"; Str "Markets"]);
   ("description",
    [Str "Markets rallied today on strong earnings";
     Str "A short note about the market rally today";
     Str "Another short note about the market today";
     Str "The central bank kept its benchmark rate unchanged";
     Str "Nothing much happened on the markets today"]);
   ("url",
    [Str "https://example.com/1"; Str "https://example.com/2";
     Str "https://example.com/3"; Str "https://example.com/4";
     Str "https://example.com/5"]);
   ("publishedAt",
    [Str "2024-01-01T00:00:00Z"; Str "2024-01-02T12:30:00Z";
     Str "2024-01-03T08:00:00Z"; Str "2024-01-02T12:30:00Z";
     Str "2024-01-01T00:00:00Z"])].

(** A frame with its columns and no row. *)
Definition sample_no_rows : DataFrame :=
  [("title", []); ("description", []); ("url", []); ("publishedAt", [])].

(** [str] of a cell, for the cells the samples hold. *)
Definition sample_str (c : cell) : string :=
  match c with
  | Str s => s
  | Null => "nan"
  | _ => ""
  end.

(** An analyzer that knows one bullish and one bearish headline. *)
Definition sample_polarity (text : string) : transform_sentiment.scores :=
  if String.prefix "Stocks soar" text
  then {| transform_sentiment.compound := Q2Qc (6369 # 10000);
          transform_sentiment.pos := Q2Qc (344 # 1000);
          transform_sentiment.neg := Q2Qc 0;
          transform_sentiment.neu := Q2Qc (656 # 1000) |}
  else if String.prefix "Oil prices slide" text
  then {| transform_sentiment.compound := Q2Qc (- 4404 # 10000);
          transform_sentiment.pos := Q2Qc 0;
          transform_sentiment.neg := Q2Qc (293 # 1000);
          transform_sentiment.neu := Q2Qc (707 # 1000) |}
  else {| transform_sentiment.compound := Q2Qc 0;
          transform_sentiment.pos := Q2Qc 0;
          transform_sentiment.neg := Q2Qc 0;
          transform_sentiment.neu := Q2Qc 1 |}.


(** The API answers 200 with one article. *)
Definition sample_api_ok : extract_news.response :=
  {| extract_news.status_error := None;
     extract_news.body :=
       Ok (JObj [("status", JStr "ok"); ("totalResults", JNum (Q2Qc 1));
                 ("articles",
                  JArr [JObj [("source", JObj [("id", JNull); ("name", JStr "Reuters")]);
                              ("title", JStr "Stocks soar to record highs");
                              ("description", JStr "Markets rallied today on strong earnings");
                              ("url", JStr "https://example.com/1");
                              ("publishedAt", JStr "2024-01-01T00:00:00Z")]])]) |}.

Definition sample_strftime (t : Z) : string :=
  pretty (t `div` validate_data.microseconds_per_day)%Z.

(** An enriched table of one row that has every column of the database
    table but [extracted_at]. *)
Definition sample_enriched_unstamped : DataFrame :=
  [("title", [Str "Stocks soar to record highs"]);
   ("description", [Str "Markets rallied today on strong earnings"]);
   ("url", [Str "https://example.com/1"]);
   ("source_name", [Str "Reuters"]);
   ("publishedAt", [Time 1704067200000000]);
   ("sentiment_compound", [Num (Q2Qc (6369 # 10000))]);
   ("sentiment_positive", [Num (Q2Qc (344 # 1000))]);
   ("sentiment_negative", [Num (Q2Qc 0)]);
   ("sentiment_neutral", [Num (Q2Qc (656 # 1000))]);
   ("sentiment_label", [Str "positive"]);
   ("date", [Date 19723]);
   ("hour", [Num (Q2Qc 0)]);
   ("day_of_week", [Str "Monday"])].

(** The same table as the pipeline hands it over, stamped by the
    extractor. *)
Definition sample_enriched : DataFrame :=
  sample_enriched_unstamped ++ [("extracted_at", [Time 1704715200000000])].

(** An engine that stores well-typed values as they are. *)
Definition sample_cast (row : list cell) : option (list cell) := Some row.

(** An engine that rejects every row. *)
Definition sample_cast_error (row : list cell) : option (list cell) := None.

(** The API answers 200 with no article. *)
Definition sample_api_nothing : extract_news.response :=
  {| extract_news.status_error := None;
     extract_news.body :=
       Ok (JObj [("status", JStr "ok"); ("totalResults", JNum (Q2Qc 0));
                 ("articles", JArr [])]) |}.

(** The stages of a run, built from the scripts' own functions over the
    sample collaborators. *)
Definition sample_extract (answer : extract_news.response) (days_back page_size : nat)
  : result DataFrame :=
  extract_news.extract_financial_news
    (λ _ _, Ok answer) (λ _, Raise (ValueError "DataFrame constructor not properly called!"))
    sample_parse sample_strftime (Some "key") sample_now
    ["stocks"; "market"; "finance"; "economy"] days_back page_size.

Definition sample_save {A : Type} (_ : A) : result () := Ok ().

Definition sample_validate (df : DataFrame)
  : result (DataFrame * validate_data.quality_report) :=
  (validate_data.validate_news_data sample_parse sample_now df).2.

Definition sample_transform (df : DataFrame) : result DataFrame :=
  transform_sentiment.add_sentiment_analysis sample_str sample_polarity sample_parse df.

Definition sample_format_mean (df : DataFrame) : result string := Ok "0.637".

Definition sample_load (cast_row : list cell → option (list cell)) (df : DataFrame)
  : result bool :=
  Ok (load_to_database.load_to_duckdb sample_parse cast_row sample_now df None).2.

End Samples.

(** ** More sample data *)
Module MoreSamples.
Import validate_data.

(** Two articles read from a file that has no title column. *)
Definition sample_no_title : DataFrame :=
  [("description",
    [Str "Markets rallied today on strong earnings";
     Str "The central bank kept its benchmark rate unchanged"]);
   ("publishedAt", [Str "2024-01-01T00:00:00Z"; Str "2024-01-02T12:30:00Z"])].

(** A data directory that can be written to. *)
Definition sample_open (path : string) : option string := None.

(** Timestamps print as their number of microseconds. *)
Definition sample_isoformat (t : Z) : string := pretty t.

(** One decimal, for the whole percentages of the samples. *)
Definition sample_format_1f (q : Qc) : string :=
  pretty (Qnum q `div` Z.pos (Qden q))%Z +:+ ".0".

Definition sample_str_missing (missing_counts : gmap string nat) : string :=
  String.concat ", "
    ((λ field, field +:+ ": " +:+ str_nat (default 0 (missing_counts !! field)))
       <$> critical_fields).

Definition sample_str_freshness (fresh : freshness_report) : string :=
  pretty (span_days fresh) +:+ " days".

Definition sample_str_content (content : content_report) : string :=
  str_nat (short_titles content) +:+ " short titles, "
  +:+ str_nat (short_descriptions content) +:+ " short descriptions".

(** [save_quality_report] over the sample collaborators. *)
Definition sample_save_quality_report :=
  validate_data_report.save_quality_report sample_open sample_isoformat
    sample_format_1f sample_str_missing sample_str_freshness sample_str_content.

End MoreSamples.


(** * Facts *)

(** ** Results *)
Module PyFacts.

Lemma bind_Ok {A B} (m : result A) (f : A → result B) (b : B) :
  m ≫= f = Ok b → ∃ a, m = Ok a ∧ f a = Ok b.
Proof. destruct m as [a|e]; [eauto | discriminate]. Qed.

Lemma mapM_result_length {A B} (f : A → result B) (l : list A) (k : list B) :
  mapM f l = Ok k → length k = length l.
Proof.
  revert k. induction l as [|x l IH]; intros k; simpl.
  - by intros [= <-].
  - intros (y & Hy & Hk)%bind_Ok. apply bind_Ok in Hk as (k' & Hk' & [= <-]).
    simpl. f_equal. by apply IH.
Qed.

Lemma mapM_result_lookup {A B} (f : A → result B) (l : list A) (k : list B) i y :
  mapM f l = Ok k → k !! i = Some y → ∃ x, l !! i = Some x ∧ f x = Ok y.
Proof.
  revert k i. induction l as [|x l IH]; intros k i; simpl.
  - by intros [= <-].
  - intros (z & Hz & Hk)%bind_Ok. apply bind_Ok in Hk as (k' & Hk' & [= <-]).
    destruct i as [|i]; simpl.
    + intros [= <-]. eauto.
    + intros Hi. eauto.
Qed.

Lemma mapM_result_fmap {A B C} (f : B → result C) (h : A → B) (g : A → C)
    (l : list A) :
  (∀ x, f (h x) = Ok (g x)) → mapM f (h <$> l) = Ok (g <$> l).
Proof.
  intros Hf. induction l as [|x l IH]; [done|].
  change (mapM f (h <$> x :: l))
    with (f (h x) ≫= λ y, mapM f (h <$> l) ≫= λ k, mret (y :: k)).
  by rewrite Hf, IH.
Qed.

(** Run the binds of a computation whose steps are known. *)
Ltac run_result :=
  repeat (progress (unfold mbind, mret, result_bind, result_ret; simpl)).

End PyFacts.

(** ** Boolean indexing and columns *)
Module PandasFacts.
Import PyFacts.

Section mask.
Context {A : Type}.
Implicit Types (s : list A) (flags : list bool).

Lemma mask_nil_r flags : mask flags ([] : list A) = [].
Proof. by destruct flags. Qed.

Lemma mask_sublist flags s : mask flags s `sublist_of` s.
Proof.
  revert s. induction flags as [|b flags IH]; intros s.
  - apply sublist_nil_l.
  - destruct s as [|x s]; [constructor|]. simpl.
    destruct b; [apply sublist_skip | apply sublist_cons]; apply IH.
Qed.

Lemma mask_Forall (P : A → Prop) flags s : Forall P s → Forall P (mask flags s).
Proof.
  rewrite !Forall_forall. intros H x Hx.
  eapply H, elem_of_sublist; [done | apply mask_sublist].
Qed.

Lemma mask_NoDup flags s : NoDup s → NoDup (mask flags s).
Proof. intros H. eapply sublist_NoDup; [done | apply mask_sublist]. Qed.

(** Indexing a Series by a test of its own cells keeps cells that pass. *)
Lemma mask_own_test (f : A → bool) s : Forall (λ x, f x = true) (mask (f <$> s) s).
Proof.
  induction s as [|x s IH]; simpl; [constructor|].
  destruct (f x) eqn:Hx; [constructor|]; done.
Qed.

(** The length after indexing depends on the flags and the length only. *)
Lemma mask_length {B : Type} flags s (s' : list B) :
  length s = length s' → length (mask flags s) = length (mask flags s').
Proof.
  revert s s'. induction flags as [|b flags IH]; intros [|x s] [|y s'];
    simpl; try done.
  intros [= H]. destruct b; simpl; auto.
Qed.
End mask.

Lemma mask_zip_with {A B C} (f : A → B → C) flags (s : list A) (s' : list B) :
  mask flags (zip_with f s s') = zip_with f (mask flags s) (mask flags s').
Proof.
  revert s s'. induction flags as [|b flags IH]; intros s s'.
  - by destruct s, s'.
  - destruct s as [|x s]; [done|]. destruct s' as [|y s']; simpl.
    + destruct b; [done | by destruct (mask flags s)].
    + destruct b; simpl; by rewrite IH.
Qed.

(** Dropping the flagged rows leaves keys that differ from each other and
    from the keys seen before. *)
Lemma drop_duplicated_NoDup (seen keys : list (list cell)) :
  NoDup (mask (negb <$> duplicated_from seen keys) keys)
  ∧ ∀ k, k ∈ mask (negb <$> duplicated_from seen keys) keys → k ∉ seen.
Proof.
  revert seen. induction keys as [|k keys IH]; intros seen; simpl.
  - split; [constructor | intros k []%elem_of_nil].
  - destruct (IH (k :: seen)) as [Hnd Hseen].
    case_bool_decide as Hk; simpl.
    + split; [done|]. intros k' Hk' Hin. apply (Hseen k' Hk'). by right.
    + split.
      * constructor; [|done]. intros Hin. apply (Hseen k Hin). by left.
      * intros k' [->|Hk']%elem_of_cons; [done|].
        intros Hin. apply (Hseen k' Hk'). by right.
Qed.

Lemma column_select c flags (df : DataFrame) :
  column c (select flags df) = mask flags <$> column c df.
Proof.
  induction df as [|[k s] df IH]; simpl; [done|].
  destruct (String.eqb k c); [done | apply IH].
Qed.

Lemma columns_select flags (df : DataFrame) : columns (select flags df) = columns df.
Proof.
  unfold columns, select. rewrite <-list_fmap_compose.
  apply list_fmap_ext. by intros i [k s] _.
Qed.

Lemma column_setitem_eq c s (df : DataFrame) : column c (setitem c s df) = Some s.
Proof.
  induction df as [|[k old] df IH]; simpl.
  - by rewrite String.eqb_refl.
  - destruct (String.eqb k c) eqn:Hk; simpl; rewrite Hk; [done | apply IH].
Qed.

Lemma column_setitem_ne c c' s (df : DataFrame) :
  c ≠ c' → column c' (setitem c s df) = column c' df.
Proof.
  intros Hne. induction df as [|[k old] df IH]; simpl.
  - destruct (String.eqb_spec c c'); [done | done].
  - destruct (String.eqb_spec k c) as [->|Hk]; simpl.
    + by destruct (String.eqb_spec c c').
    + destruct (String.eqb k c'); [done | apply IH].
Qed.

(** Storing the Series a column already holds changes nothing. *)
Lemma setitem_same c s (df : DataFrame) : column c df = Some s → setitem c s df = df.
Proof.
  induction df as [|[k old] df IH]; simpl; [done|].
  destruct (String.eqb k c); [by intros [= ->] | intros H; by rewrite IH].
Qed.

Lemma columns_setitem c s s' (df : DataFrame) :
  column c df = Some s' → columns (setitem c s df) = columns df.
Proof.
  unfold columns. induction df as [|[k old] df IH]; simpl; [done|].
  destruct (String.eqb k c); simpl; [done | intros H; f_equal; by apply IH].
Qed.

Lemma len_setitem c s s' (df : DataFrame) :
  column c df = Some s' → length s = length s' → len (setitem c s df) = len df.
Proof.
  destruct df as [|[k old] df]; simpl; [done|].
  destruct (String.eqb k c); simpl; [by intros [= ->] | done].
Qed.

Lemma empty_len (df : DataFrame) : empty df = true → len df = 0.
Proof.
  unfold empty. intros [H|H]%orb_prop.
  - apply bool_decide_eq_true in H. by destruct df.
  - by apply Nat.eqb_eq.
Qed.

Lemma nonempty_len (df : DataFrame) : empty df = false → 0 < len df.
Proof.
  unfold empty. intros [_ H]%orb_false_elim. apply Nat.eqb_neq in H. lia.
Qed.

Lemma rectangular_Forall (df : DataFrame) :
  rectangular df = true ↔ Forall (λ kv, length kv.2 = len df) df.
Proof.
  unfold rectangular. rewrite forallb_forall, Forall_forall.
  split; intros H kv Hkv.
  - apply Nat.eqb_eq, H. by apply list_elem_of_In.
  - apply Nat.eqb_eq, H. by apply list_elem_of_In.
Qed.

Lemma column_elem_of c s (df : DataFrame) : column c df = Some s → (c, s) ∈ df.
Proof.
  induction df as [|[k old] df IH]; simpl; [done|].
  destruct (String.eqb_spec k c) as [->|_].
  - intros [= ->]. by left.
  - intros H. right. by apply IH.
Qed.

Lemma rectangular_column c s (df : DataFrame) :
  rectangular df = true → column c df = Some s → length s = len df.
Proof.
  rewrite rectangular_Forall, Forall_forall.
  intros H Hc. by apply (H (c, s)), column_elem_of.
Qed.

Lemma Forall_length_select n flags (s0 : Series) (df : DataFrame) :
  length s0 = n → Forall (λ kv, length kv.2 = n) df →
  Forall (λ kv, length kv.2 = length (mask flags s0)) (select flags df).
Proof.
  intros Hs0 H. unfold select. apply Forall_fmap.
  eapply Forall_impl; [exact H|]. intros [k s] Hs. simpl in *.
  apply mask_length. by rewrite Hs.
Qed.

Lemma rectangular_select flags (df : DataFrame) :
  rectangular df = true → rectangular (select flags df) = true.
Proof.
  rewrite !rectangular_Forall. destruct df as [|[k0 s0] df]; [done|].
  intros H. by apply (Forall_length_select (length s0)).
Qed.

Lemma Forall_length_setitem n c s (df : DataFrame) :
  length s = n → Forall (λ kv, length kv.2 = n) df →
  Forall (λ kv, length kv.2 = n) (setitem c s df).
Proof.
  intros Hs. induction df as [|[k old] df IH]; simpl.
  - intros _. by repeat constructor.
  - intros [Hold Hrest]%Forall_cons. destruct (String.eqb k c).
    + by constructor.
    + constructor; [done | by apply IH].
Qed.

Lemma rectangular_setitem c s s' (df : DataFrame) :
  rectangular df = true → column c df = Some s' → length s = length s' →
  rectangular (setitem c s df) = true.
Proof.
  intros Hrect Hc Hlen.
  assert (Hs : length s = len df).
  { rewrite Hlen. eauto using rectangular_column. }
  apply rectangular_Forall. rewrite (len_setitem c s s' df Hc Hlen).
  apply Forall_length_setitem; [done | by apply rectangular_Forall].
Qed.

(** The rows of two columns of equal length, as pairs. *)
Lemma zip_rows_pair n (a b : Series) :
  length a = n → length b = n → zip_rows n [a; b] = zip_with (λ x y, [x; y]) a b.
Proof.
  intros <-. revert b. induction a as [|x a IH]; intros [|y b]; simpl; try done.
  intros [= H]. f_equal. by apply IH.
Qed.

End PandasFacts.

(** ** validate_data.py *)
Module ValidateFacts.
Import PyFacts PandasFacts validate_data.

Lemma len_ge_notnull n c : len_ge n c = true → c ≠ Null.
Proof. by intros H ->. Qed.


Lemma subset_rows_pair a b (df : DataFrame) keys :
  subset_rows [a; b] df = Ok keys →
  ∃ sa sb, column a df = Some sa ∧ column b df = Some sb
           ∧ keys = zip_rows (len df) [sa; sb].
Proof.
  unfold subset_rows, getcol. simpl.
  destruct (column a df) as [sa|]; [|done].
  destruct (column b df) as [sb|]; [|done]. simpl.
  intros [= <-]. eauto.
Qed.

Lemma subset_rows_pair_Ok a b (df : DataFrame) sa sb :
  column a df = Some sa → column b df = Some sb →
  subset_rows [a; b] df = Ok (zip_rows (len df) [sa; sb]).
Proof.
  intros Ha Hb. unfold subset_rows, getcol. simpl. rewrite Ha. run_result.
  rewrite Hb. by run_result.
Qed.

Section facts.
Variable parse_datetime : cell → option Z.
Variable now : Z.

(** What cleaning leaves: the three columns it reads, titles and
    descriptions long enough, keys that differ, and a rectangular frame. *)
Lemma clean_columns (df out : DataFrame) :
  rectangular df = true → clean df = Ok out →
  ∃ t d p,
    column "title" out = Some t ∧ column "description" out = Some d
    ∧ column "publishedAt" out = Some p
    ∧ Forall (λ c, len_ge 10 c = true) t
    ∧ Forall (λ c, len_ge 20 c = true) d
    ∧ NoDup (zip_with (λ x y, [x; y]) t p)
    ∧ rectangular out = true.
Proof.
  intros Hrect. unfold clean, dropna, drop_duplicates, duplicated.
  intros (dfA & HA & H)%bind_Ok.
  apply bind_Ok in HA as (keys1 & Hkeys1 & [= <-]).
  apply subset_rows_pair in Hkeys1 as (t0 & d0 & Ht0 & Hd0 & ->).
  set (m1 := forallb notnull <$> _) in *.
  apply bind_Ok in H as (dfB & HB & H).
  apply bind_Ok in HB as (dup & Hdup & [= <-]).
  apply bind_Ok in Hdup as (keysA & HkeysA & [= <-]).
  apply subset_rows_pair in HkeysA as (tA & pA & HtA & HpA & ->).
  assert (HrectA : rectangular (select m1 df) = true)
    by by apply rectangular_select.
  rewrite zip_rows_pair in H by eauto using rectangular_column.
  set (K := zip_with _ tA pA) in *.
  set (m2 := negb <$> duplicated_from [] K) in *.
  set (dfA := select m1 df) in *.
  assert (HrectB : rectangular (select m2 dfA) = true)
    by by apply rectangular_select.
  rewrite !column_select in H. rewrite HtA in H. simpl in H.
  set (tB := mask m2 tA) in *.
  set (m3 := len_ge 10 <$> tB) in *.
  rewrite !column_select in H.
  assert (HdA : ∃ dA, column "description" dfA = Some dA).
  { subst dfA. rewrite column_select, Hd0. simpl. eauto. }
  destruct HdA as [dA HdA]. rewrite HdA in H. simpl in H.
  set (dC := mask m3 (mask m2 dA)) in *.
  injection H as <-.
  exists (mask (len_ge 20 <$> dC) (mask m3 tB)), (mask (len_ge 20 <$> dC) dC),
         (mask (len_ge 20 <$> dC) (mask m3 (mask m2 pA))).
  rewrite !column_select, HtA, HdA, HpA. simpl.
  split_and!; try done.
  - apply mask_Forall, mask_own_test.
  - apply mask_own_test.
  - subst tB. rewrite <-!mask_zip_with. do 2 apply mask_NoDup.
    apply (drop_duplicated_NoDup [] K).
  - by do 2 apply rectangular_select.
Qed.

(** Check 3 hands back the frame it was given, or that frame with the
    parsed timestamps stored in its publishedAt column. *)
Lemma check_freshness_frame (df df1 : DataFrame) r :
  check_freshness parse_datetime now df = (df1, r) →
  df1 = df
  ∨ ∃ published parsed,
      column "publishedAt" df = Some published
      ∧ to_datetime parse_datetime published = Ok parsed
      ∧ df1 = setitem "publishedAt" parsed df.
Proof.
  unfold check_freshness.
  destruct (column "publishedAt" df) as [published|]; [|intros [= <- _]; by left].
  destruct (to_datetime parse_datetime published) as [parsed|e] eqn:Hparsed;
    [|intros [= <- _]; by left].
  intros H. right. exists published, parsed. split_and!; try done.
  cbv zeta in H.
  by destruct (series_min parsed), (series_max parsed); injection H as <- _.
Qed.

Lemma run_checks_frame (df df1 : DataFrame) r :
  run_checks parse_datetime now df = (df1, r) →
  df1 = df
  ∨ ∃ published parsed,
      column "publishedAt" df = Some published
      ∧ to_datetime parse_datetime published = Ok parsed
      ∧ df1 = setitem "publishedAt" parsed df.
Proof.
  unfold run_checks.
  destruct (duplicated _ df) as [flags|e]; [|intros [= <- _]; by left].
  destruct (0 <? count_true flags).
  - intros [= <- _]. by left.
  - destruct (check_freshness parse_datetime now df) as [df2 fresh] eqn:Hfresh.
    apply check_freshness_frame in Hfresh.
    by destruct fresh; intros [= <- _].
Qed.

Lemma run_checks_rectangular (df df1 : DataFrame) r :
  rectangular df = true → run_checks parse_datetime now df = (df1, r) →
  rectangular df1 = true.
Proof.
  intros Hrect [->|(published & parsed & Hcol & Hparsed & ->)]%run_checks_frame;
    [done|].
  eapply rectangular_setitem; [done..|].
  by eapply mapM_result_length.
Qed.

Lemma run_checks_len (df df1 : DataFrame) r :
  run_checks parse_datetime now df = (df1, r) → len df1 = len df.
Proof.
  intros [->|(published & parsed & Hcol & Hparsed & ->)]%run_checks_frame;
    [done|].
  eapply len_setitem; [done|]. by eapply mapM_result_length.
Qed.

(** A call on a frame that is not empty returns through the checks, the
    cleaning and the summary. *)
Lemma validate_news_data_inv (df df' out : DataFrame) rep :
  empty df = false →
  validate_news_data parse_datetime now df = (df', Ok (out, rep)) →
  ∃ checked,
    run_checks parse_datetime now df = (df', Ok checked)
    ∧ clean df' = Ok out
    ∧ rep = summarize now (len df) checked out.
Proof.
  unfold validate_news_data. intros ->.
  destruct (run_checks parse_datetime now df) as [df1 [checked|e]];
    [|intros [= _ ?]; done].
  destruct (clean df1) as [df_clean|e] eqn:Hclean; [|done].
  intros [= <- <- <-]. eauto.
Qed.


(** The test of line 143 on exact numbers: more than half of the rows
    were removed. *)
Lemma removal_rate_over_half (removed : Z) (initial : nat) :
  0 < initial →
  (Qc_of_Z 50 < removal_rate removed initial)%Qc ↔ (Z.of_nat initial < 2 * removed)%Z.
Proof.
  intros Hpos. unfold removal_rate. rewrite (proj2 (Nat.ltb_lt _ _) Hpos).
  unfold Qclt, Qcdiv, Qcmult, Qcinv, Qc_of_Z, Q2Qc. simpl.
  rewrite !Qred_correct.
  destruct (Z.of_nat initial) as [|p|p] eqn:Hi; [lia| |lia].
  unfold Qlt, Qmult, Qinv, inject_Z. simpl. lia.
Qed.

Lemma summarize_status initial checked (out : DataFrame) :
  let rep := summarize now initial checked out in
  let percentage :=
    removal_rate (Z.of_nat initial - Z.of_nat (len out)) initial in
  removal_percentage rep = Some percentage
  ∧ (status rep = "FAILED" ↔ len out = 0)
  ∧ (len out ≠ 0 → (status rep = "WARNING" ↔ (Qc_of_Z 50 < percentage)%Qc))
  ∧ (len out ≠ 0 → ¬ (Qc_of_Z 50 < percentage)%Qc → status rep = "PASSED").
Proof.
  unfold summarize. cbv zeta.
  destruct (len out =? 0) eqn:Hfinal.
  - apply Nat.eqb_eq in Hfinal. simpl. by split_and!.
  - apply Nat.eqb_neq in Hfinal. case_bool_decide as Hrate; simpl.
    + by split_and!.
    + by split_and!.
Qed.

(** C2. On an input that is not empty, the status of the report is FAILED
    exactly when the cleaned table has no rows; otherwise it is WARNING
    exactly when the removal percentage, (initial - final) / initial * 100,
    exceeds 50; otherwise it is PASSED. *)
Theorem validate_news_data_status (df df' out : DataFrame) rep :
  empty df = false →
  validate_news_data parse_datetime now df = (df', Ok (out, rep)) →
  let initial := Z.of_nat (len df) in
  let final := Z.of_nat (len out) in
  let percentage := (Qc_of_Z (initial - final) / Qc_of_Z initial * Qc_of_Z 100)%Qc in
  initial_records rep = Some (len df)
  ∧ final_records rep = Some (len out)
  ∧ removal_percentage rep = Some percentage
  ∧ (status rep = "FAILED" ↔ len out = 0)
  ∧ (len out ≠ 0 → (status rep = "WARNING" ↔ (Qc_of_Z 50 < percentage)%Qc))
  ∧ (len out ≠ 0 → ¬ (Qc_of_Z 50 < percentage)%Qc → status rep = "PASSED").
Proof.
  intros Hempty Hcall. cbv zeta.
  apply validate_news_data_inv in Hcall as (checked & _ & _ & ->); [|done].
  pose proof (summarize_status (len df) checked out) as Hsum. cbv zeta in Hsum.
  unfold removal_rate in Hsum.
  apply nonempty_len in Hempty. apply Nat.ltb_lt in Hempty as Hpos.
  rewrite Hpos in Hsum. split_and!; try apply Hsum.
  - unfold summarize. by repeat case_match.
  - unfold summarize. by repeat case_match.
Qed.

(** C10. On an empty input the call returns the input as it is, with a
    report that holds the status FAILED and the reason 'Empty dataframe'
    and nothing else; the caller's frame is untouched and nothing is
    raised. *)
Theorem validate_news_data_empty_input (df : DataFrame) :
  empty df = true →
  validate_news_data parse_datetime now df
  = (df, Ok (df, {| status := "FAILED"; reason := Some "Empty dataframe";
                    timestamp := None; initial_records := None;
                    checks := None; final_records := None;
                    removed_records := None; removal_percentage := None |})).
Proof. unfold validate_news_data. by intros ->. Qed.

Lemma check_freshness_report (df df1 : DataFrame) fresh :
  check_freshness parse_datetime now df = (df1, Ok fresh) →
  (is_Some fresh ↔ has_column "publishedAt" df = true).
Proof.
  unfold check_freshness, has_column.
  destruct (column "publishedAt" df) as [published|].
  - destruct (to_datetime parse_datetime published) as [parsed|e]; [|done].
    cbv zeta.
    destruct (series_min parsed), (series_max parsed); intros [= _ <-];
      by split.
  - intros [= _ <-]. split; [by intros [? ?] | done].
Qed.

Lemma run_checks_report (df df1 : DataFrame) checked :
  run_checks parse_datetime now df = (df1, Ok checked) →
  ∃ flags,
    duplicated ["title"; "publishedAt"] df = Ok flags
    ∧ duplicates checked = count_true flags
    ∧ (is_Some (freshness checked)
       ↔ count_true flags = 0 ∧ has_column "publishedAt" df = true).
Proof.
  unfold run_checks.
  destruct (duplicated _ df) as [flags|e]; [|done].
  intros Hrun. exists flags. destruct (0 <? count_true flags) eqn:Hdup.
  - apply Nat.ltb_lt in Hdup. injection Hrun as _ <-. simpl.
    split_and!; try done. split; [by intros [? ?] | lia].
  - apply Nat.ltb_ge in Hdup.
    destruct (check_freshness parse_datetime now df) as [df2 [fresh|e]] eqn:Hfresh;
      [|done].
    apply check_freshness_report in Hfresh.
    injection Hrun as _ <-. simpl. split_and!; try done.
    rewrite Hfresh. split; [split; [lia | done] | by intros [_ ?]].
Qed.


Lemma to_datetime_timestamps (s : Series) :
  Forall (λ c, c = Null ∨ ∃ t, c = Time t) s →
  to_datetime parse_datetime s = Ok s.
Proof.
  unfold to_datetime. induction 1 as [|c s [->|[t ->]] _ IH]; simpl;
    [done | by rewrite IH..].
Qed.


Lemma has_column_Some c (df : DataFrame) :
  has_column c df = true ↔ is_Some (column c df).
Proof.
  unfold has_column. destruct (column c df); split; done.
Qed.

Lemma clean_returns (df : DataFrame) :
  has_column "title" df = true → has_column "description" df = true →
  has_column "publishedAt" df = true → ∃ out, clean df = Ok out.
Proof.
  rewrite !has_column_Some. intros [t Ht] [d Hd] [p Hp].
  unfold clean, dropna, drop_duplicates, duplicated.
  rewrite (subset_rows_pair_Ok _ _ _ _ _ Ht Hd). run_result.
  erewrite subset_rows_pair_Ok by (rewrite column_select; by (rewrite Ht || rewrite Hp)).
  run_result. rewrite !column_select, Ht. simpl.
  rewrite !column_select, Hd. simpl. eauto.
Qed.

Lemma series_min_max_Some (s : Series) :
  timestamps s ≠ [] → ∃ lo hi, series_min s = Some lo ∧ series_max s = Some hi.
Proof.
  unfold series_min, series_max. destruct (timestamps s); [done | eauto].
Qed.

(** The call returns on every frame that has the three columns the checks
    and the cleaning read, provided that, when check 3 runs, every
    timestamp can be read and one at least is not null. *)
Lemma validate_news_data_returns (df : DataFrame) :
  has_column "title" df = true → has_column "description" df = true →
  has_column "publishedAt" df = true →
  (∀ flags published,
     duplicated ["title"; "publishedAt"] df = Ok flags → count_true flags = 0 →
     column "publishedAt" df = Some published →
     ∃ parsed, to_datetime parse_datetime published = Ok parsed
               ∧ timestamps parsed ≠ []) →
  ∃ df' out rep, validate_news_data parse_datetime now df = (df', Ok (out, rep)).
Proof.
  intros Ht Hd Hp Hfresh. unfold validate_news_data.
  destruct (empty df); [eauto|].
  assert (Hchecks : ∃ df1 checked,
            run_checks parse_datetime now df = (df1, Ok checked)
            ∧ has_column "title" df1 = true
            ∧ has_column "description" df1 = true
            ∧ has_column "publishedAt" df1 = true).
  { unfold run_checks.
    apply has_column_Some in Ht as Ht'. destruct Ht' as [t Ht'].
    apply has_column_Some in Hp as Hp'. destruct Hp' as [p Hp'].
    assert (Hflags : ∃ flags, duplicated ["title"; "publishedAt"] df = Ok flags).
    { unfold duplicated. rewrite (subset_rows_pair_Ok _ _ _ _ _ Ht' Hp').
      run_result. eauto. }
    destruct Hflags as [flags Hflags]. rewrite Hflags.
    destruct (0 <? count_true flags) eqn:Hdup; [eauto 10|].
    apply Nat.ltb_ge in Hdup.
    destruct (Hfresh flags p Hflags ltac:(lia) Hp') as (parsed & Hparsed & Hstamps).
    apply series_min_max_Some in Hstamps as (lo & hi & Hlo & Hhi).
    unfold check_freshness. rewrite Hp', Hparsed. cbv zeta. rewrite Hlo, Hhi.
    eexists _, _. split; [done|].
    unfold has_column in *.
    rewrite !column_setitem_ne by done. by rewrite column_setitem_eq. }
  destruct Hchecks as (df1 & checked & -> & Ht1 & Hd1 & Hp1).
  destruct (clean_returns df1 Ht1 Hd1 Hp1) as [out ->]. eauto.
Qed.

(** After the checks nothing touches the caller's frame again: cleaning
    works on a copy. *)
Lemma validate_news_data_caller_frame (df : DataFrame) :
  (validate_news_data parse_datetime now df).1
  = if empty df then df else (run_checks parse_datetime now df).1.
Proof.
  unfold validate_news_data. destruct (empty df); [done|].
  destruct (run_checks parse_datetime now df) as [df1 [checked|e]]; [|done].
  simpl. by destruct (clean df1).
Qed.
End facts.
End ValidateFacts.

(** *** Worked examples *)
Module ValidateExamples.
Import validate_data ValidateFacts Samples.

(** The scenario of ten raw articles with two duplicates and one short
    title: seven rows remain, three are removed (30 percent), the status is
    PASSED; the caller's frame is as it was, since duplicates were found. *)
Example validate_ten_articles :
  ∃ out rep checked,
    validate_news_data sample_parse sample_now sample_raw = (sample_raw, Ok (out, rep))
    ∧ len out = 7 ∧ status rep = "PASSED" ∧ removed_records rep = Some 3%Z
    ∧ removal_percentage rep = Some (Qc_of_Z 30)
    ∧ checks rep = Some checked
    ∧ duplicates checked = 2 ∧ short_titles (content_quality checked) = 1
    ∧ freshness checked = None.
Proof.
  eexists _, _, _. split; [vm_compute; reflexivity|].
  split_and!; try reflexivity. simpl. f_equal. by apply Qc_is_canon.
Qed.


Lemma validate_news_data_status_witness :
  ∃ df' out rep,
    empty sample_raw = false
    ∧ validate_news_data sample_parse sample_now sample_raw = (df', Ok (out, rep))
    ∧ (len sample_raw = 10 ∧ len out = 7 ∧ status rep = "PASSED")
    ∧ let initial := Z.of_nat (len sample_raw) in
      let final := Z.of_nat (len out) in
      let percentage := (Qc_of_Z (initial - final) / Qc_of_Z initial * Qc_of_Z 100)%Qc in
      initial_records rep = Some (len sample_raw)
      ∧ final_records rep = Some (len out)
      ∧ removal_percentage rep = Some percentage
      ∧ (status rep = "FAILED" ↔ len out = 0)
      ∧ (len out ≠ 0 → (status rep = "WARNING" ↔ (Qc_of_Z 50 < percentage)%Qc))
      ∧ (len out ≠ 0 → ¬ (Qc_of_Z 50 < percentage)%Qc → status rep = "PASSED").
Proof.
  eexists _, _, _. split; [reflexivity|].
  split; [vm_compute; reflexivity|].
  split; [by split_and!|].
  eapply (validate_news_data_status sample_parse sample_now sample_raw);
    [reflexivity | vm_compute; reflexivity].
Defined.

Lemma validate_news_data_empty_input_witness :
  empty sample_no_rows = true
  ∧ validate_news_data sample_parse sample_now sample_no_rows
    = (sample_no_rows,
       Ok (sample_no_rows,
           {| status := "FAILED"; reason := Some "Empty dataframe";
              timestamp := None; initial_records := None;
              checks := None; final_records := None;
              removed_records := None; removal_percentage := None |})).
Proof.
  split; [reflexivity|].
  apply (validate_news_data_empty_input sample_parse sample_now sample_no_rows).
  reflexivity.
Defined.


(** Three rows of five removed: 60 percent, the status is WARNING with
    the reason 'High removal rate', and the table returned is not empty. *)
Example validate_mostly_junk :
  ∃ df' out rep,
    validate_news_data sample_parse sample_now sample_mostly_junk = (df', Ok (out, rep))
    ∧ len out = 2 ∧ empty out = false
    ∧ status rep = "WARNING" ∧ reason rep = Some "High removal rate"
    ∧ removal_percentage rep = Some (Qc_of_Z 60).
Proof.
  eexists _, _, _. split; [vm_compute; reflexivity|].
  split_and!; try reflexivity. simpl. f_equal. by apply Qc_is_canon.
Qed.

(** Without duplicates check 3 runs and reports the span. *)
Example validate_fresh_articles :
  ∃ df' out rep checked,
    validate_news_data sample_parse sample_now sample_unparsed = (df', Ok (out, rep))
    ∧ checks rep = Some checked
    ∧ duplicates checked = 0
    ∧ freshness checked
      = Some {| oldest := 1704067200000000; newest := 1704198600000000;
                span_days := 7 |}.
Proof. eexists _, _, _, _. split; [vm_compute; reflexivity|]. by split_and!. Qed.



End ValidateExamples.

(** ** transform_sentiment.py *)
Module TransformFacts.
Import PyFacts PandasFacts transform_sentiment.

Lemma thresholds_apart : (negative_threshold < positive_threshold)%Qc.
Proof. by vm_compute. Qed.

(** The label as a function of the compound score. *)
Lemma categorize_sentiment_cases (x : Qc) :
  (categorize_sentiment x = "positive" ↔ (positive_threshold ≤ x)%Qc)
  ∧ (categorize_sentiment x = "negative" ↔ (x ≤ negative_threshold)%Qc)
  ∧ (categorize_sentiment x = "neutral"
     ↔ (negative_threshold < x)%Qc ∧ (x < positive_threshold)%Qc)
  ∧ categorize_sentiment x ∈ ["positive"; "negative"; "neutral"].
Proof.
  unfold categorize_sentiment. pose proof thresholds_apart as Hapart.
  case_bool_decide as Hpos; [|case_bool_decide as Hneg].
  - split_and!; [done | | | set_solver].
    + split; [done|]. intros Hneg. exfalso.
      eapply Qclt_not_le; [exact Hapart|]. by eapply Qcle_trans.
    + split; [done|]. intros [_ Hlt]. by apply Qclt_not_le in Hlt.
  - split_and!; [done | done | | set_solver].
    split; [done|]. intros [Hlt _]. by apply Qclt_not_le in Hlt.
  - apply Qcnot_le_lt in Hpos, Hneg. split_and!; [| | | set_solver].
    + split; [done|]. intros Hle. by apply Qclt_not_le in Hpos.
    + split; [done|]. intros Hle. by apply Qclt_not_le in Hneg.
    + done.
Qed.

Lemma column_app c (df df2 : DataFrame) :
  column c (df ++ df2)
  = match column c df with Some s => Some s | None => column c df2 end.
Proof.
  induction df as [|[k s] df IH]; simpl; [by destruct (column c df2)|].
  destruct (String.eqb k c); [done | apply IH].
Qed.

Lemma apply_categorize_scores (analyzed : list scores) :
  mapM apply_categorize ((Num ∘ compound) <$> analyzed)
  = Ok ((Str ∘ categorize_sentiment ∘ compound) <$> analyzed).
Proof. by apply mapM_result_fmap. Qed.

Lemma setitem_not_nil c s (df : DataFrame) : setitem c s df ≠ [].
Proof. destruct df as [|[k old] df]; simpl; [done|]. by destruct (String.eqb k c). Qed.

Lemma len_Forall n (df : DataFrame) :
  df ≠ [] → Forall (λ kv, length kv.2 = n) df → len df = n.
Proof. destruct df as [|[k s] df]; [done|]. by intros _ [? _]%Forall_cons. Qed.

Section facts.
Variable py_str : cell → string.
Variable polarity_scores : string → scores.
Variable parse_datetime : cell → option Z.

Lemma length_row_get label (df : DataFrame) :
  rectangular df = true → length (row_get label df) = len df.
Proof.
  intros Hrect. unfold row_get. destruct (column label df) as [s|] eqn:Hs; simpl.
  - by eapply rectangular_column.
  - apply length_replicate.
Qed.

Lemma length_analyze_articles (df : DataFrame) :
  rectangular df = true →
  length (analyze_articles py_str polarity_scores df) = len df.
Proof.
  intros Hrect. unfold analyze_articles.
  rewrite length_zip_with, !length_row_get by done. lia.
Qed.

(** The date features touch four columns only and keep the shape. *)
Lemma add_date_features_frame n (df out : DataFrame) :
  add_date_features parse_datetime df = Ok out →
  (∀ c, c ∉ ["publishedAt"; "date"; "hour"; "day_of_week"] →
        column c out = column c df)
  ∧ (Forall (λ kv, length kv.2 = n) df → Forall (λ kv, length kv.2 = n) out)
  ∧ (df ≠ [] → out ≠ []).
Proof.
  unfold add_date_features.
  destruct (column "publishedAt" df) as [published|] eqn:Hcol;
    [|by intros [= <-]].
  intros (parsed & Hparsed & [= <-])%bind_Ok. split_and!.
  - intros c Hc. rewrite !column_setitem_ne; [done|..]; set_solver.
  - intros Hn.
    assert (length parsed = n) as Hlen.
    { rewrite (mapM_result_length _ _ _ Hparsed).
      rewrite Forall_forall in Hn.
      by apply (Hn ("publishedAt", published)), column_elem_of. }
    repeat apply Forall_length_setitem; by rewrite ?length_fmap.
  - intros _. apply setitem_not_nil.
Qed.

(** C3. In every row of the transformer's output the label is the
    category of the row's compound score, a function of that score alone:
    positive exactly from 0.05 up, negative exactly from -0.05 down,
    neutral in between; so it is one of the three labels. *)
Theorem add_sentiment_analysis_labels (df out : DataFrame) :
  rectangular df = true →
  add_sentiment_analysis py_str polarity_scores parse_datetime df = Ok out →
  ∀ i, i < len out →
    ∃ x label,
      cell_at out "sentiment_compound" i = Some (Num x)
      ∧ cell_at out "sentiment_label" i = Some (Str label)
      ∧ label = categorize_sentiment x
      ∧ (label = "positive" ↔ (Q2Qc (5 # 100) ≤ x)%Qc)
      ∧ (label = "negative" ↔ (x ≤ Q2Qc (- 5 # 100))%Qc)
      ∧ (label = "neutral"
         ↔ (Q2Qc (- 5 # 100) < x)%Qc ∧ (x < Q2Qc (5 # 100))%Qc)
      ∧ label ∈ ["positive"; "negative"; "neutral"].
Proof.
  intros Hrect. unfold add_sentiment_analysis.
  destruct (empty df) eqn:Hempty.
  { intros [= <-] i. rewrite (empty_len df Hempty). lia. }
  unfold has_column.
  destruct (column "sentiment_compound" df) eqn:Hold; [done|].
  set (analyzed := analyze_articles py_str polarity_scores df).
  unfold getcol. rewrite column_app, Hold. simpl.
  run_result.
  rewrite apply_categorize_scores. run_result.
  set (labels := (Str ∘ categorize_sentiment ∘ compound) <$> analyzed).
  set (df2 := setitem "sentiment_label" labels _).
  intros Hdates i Hi.
  assert (Hn : length analyzed = len df) by by apply length_analyze_articles.
  apply (add_date_features_frame (len df)) in Hdates as (Hkeep & Hshape & Hnil).
  assert (Hdf : df ≠ []) by (intros ->; done).
  assert (Hlen : len out = len df).
  { apply len_Forall; [apply Hnil, setitem_not_nil|]. apply Hshape.
    apply Forall_length_setitem; [subst labels; by rewrite length_fmap|].
    apply Forall_app. split; [by apply rectangular_Forall|].
    repeat constructor; simpl; by rewrite length_fmap. }
  destruct (lookup_lt_is_Some_2 analyzed i) as [sc Hsc]; [lia|].
  exists (compound sc), (categorize_sentiment (compound sc)).
  unfold cell_at. rewrite !Hkeep by by apply (bool_decide_unpack _).
  subst df2. rewrite column_setitem_eq, column_setitem_ne by done.
  rewrite column_app, Hold. simpl.
  subst labels. rewrite !list_lookup_fmap, Hsc. simpl.
  pose proof (categorize_sentiment_cases (compound sc)) as (? & ? & ? & ?).
  by split_and!.
Qed.
End facts.
End TransformFacts.

(** ** extract_news.py *)
Module ExtractFacts.
Import PyFacts PandasFacts extract_news.

Section facts.
Variable requests_get : string → list (string * string) → result response.
Variable DataFrame_other : json → result DataFrame.
Variable parse_datetime : cell → option Z.
Variable strftime : Z → string.
Variable API_KEY : option string.
Variable now : Z.

Local Abbreviation fetch :=
  (fetch requests_get DataFrame_other parse_datetime strftime API_KEY now).
Local Abbreviation extract_financial_news :=
  (extract_financial_news requests_get DataFrame_other parse_datetime
     strftime API_KEY now).
Local Abbreviation request_params := (request_params strftime API_KEY now).
Local Abbreviation DataFrame_of := (DataFrame_of DataFrame_other).

(** Whatever the body of the [try] raises, the caller gets an empty
    frame. *)
Lemma extract_financial_news_handles keywords days_back page_size e :
  fetch keywords days_back page_size = Raise e →
  extract_financial_news keywords days_back page_size = Ok [].
Proof. unfold extract_news.extract_financial_news. intros ->. by destruct e. Qed.


End facts.
End ExtractFacts.

(** ** load_to_database.py *)
Module LoadFacts.
Import PyFacts PandasFacts load_to_database.

Section facts.
Variable parse_datetime : cell → option Z.
Variable cast_row : list cell → option (list cell).



(** An empty table is refused before the database is touched. *)
Lemma load_to_duckdb_empty (now : Z) (df : DataFrame) (db : database) :
  empty df = true →
  load_to_duckdb parse_datetime cast_row now df db = (db, false).
Proof. unfold load_to_duckdb. by intros ->. Qed.

(** A load that reports success has replaced the table by as many rows
    as the frame has. *)
Lemma load_to_duckdb_success (now : Z) (df : DataFrame) (db db1 : database) :
  load_to_duckdb parse_datetime cast_row now df db = (db1, true) →
  ∃ df_to_load rows,
    prepare parse_datetime now df = Ok df_to_load
    ∧ db1 = Some rows
    ∧ mapM cast_row (zip_rows (len df_to_load) df_to_load.*2) = Some rows.
Proof.
  unfold load_to_duckdb. destruct (empty df); [done|].
  destruct (prepare parse_datetime now df) as [df_to_load|e]; run_result;
    [|done].
  unfold insert_select. destruct (length df_to_load =? _); [|done].
  destruct (mapM cast_row _) as [rows|] eqn:Hrows; [|done].
  intros [= <-]. eauto.
Qed.


(** With one reading of the clock for both loads the same holds for
    every table. *)
Lemma load_to_duckdb_idempotent_same_clock (now : Z) (df : DataFrame) (db : database) :
  load_to_duckdb parse_datetime cast_row now df
    (load_to_duckdb parse_datetime cast_row now df db).1
  = load_to_duckdb parse_datetime cast_row now df db.
Proof. unfold load_to_duckdb. by destruct (empty df). Qed.
End facts.
End LoadFacts.

(** ** run_pipeline.py *)
Module PipelineFacts.
Import PyFacts PandasFacts run_pipeline.

Section facts.
Variable extract_financial_news : nat → nat → result DataFrame.
Variable save_raw_data : DataFrame → result ().
Variable validate_news_data : DataFrame → result (DataFrame * validate_data.quality_report).
Variable save_quality_report : validate_data.quality_report → result ().
Variable add_sentiment_analysis : DataFrame → result DataFrame.
Variable save_transformed_data : DataFrame → result ().
Variable format_mean : DataFrame → result string.
Variable load_to_duckdb : DataFrame → result bool.
Variable started finished : Z.

Local Abbreviation run_full_pipeline :=
  (run_full_pipeline extract_financial_news save_raw_data validate_news_data
     save_quality_report add_sentiment_analysis save_transformed_data
     format_mean load_to_duckdb started finished).
Local Abbreviation load_and_finish :=
  (load_and_finish load_to_duckdb finished).

(** C4. When extraction returns an empty table the run makes that one
    call and no other, records the outcome of the extract step, and ends
    with the overall status FAILED. *)
Theorem run_full_pipeline_stops_on_empty_extract days_back page_size df_raw :
  extract_financial_news days_back page_size = Ok df_raw →
  empty df_raw = true →
  ∃ st,
    run_full_pipeline days_back page_size [] = ([Call_extract_financial_news], st)
    ∧ overall_status st = "FAILED"
    ∧ steps st = {["extract" := "FAILED - No data"]}
    ∧ end_time st = None
    ∧ (Call_validate_news_data ∉ (run_full_pipeline days_back page_size []).1)
    ∧ (Call_add_sentiment_analysis ∉ (run_full_pipeline days_back page_size []).1)
    ∧ (Call_load_to_duckdb ∉ (run_full_pipeline days_back page_size []).1).
Proof.
  intros Hextract Hempty. unfold run_pipeline.run_full_pipeline.
  unfold mbind, run_bind, invoke. simpl. rewrite Hextract, Hempty.
  eexists. split; [reflexivity|]. simpl.
  split_and!; try done; by apply (bool_decide_unpack _).
Qed.

(** Step 4 never sets the overall status to FAILED: it keeps the status
    when the load succeeds and sets WARNING when the load returns False or
    raises. *)
Lemma load_and_finish_status df_final st log :
  let st' := (load_and_finish df_final st log).2 in
  (load_and_finish df_final st log).1 = log ++ [Call_load_to_duckdb]
  ∧ end_time st' = Some finished
  ∧ (load_to_duckdb df_final = Ok true → overall_status st' = overall_status st)
  ∧ (load_to_duckdb df_final = Ok false ∨ (∃ e, load_to_duckdb df_final = Raise e) →
     overall_status st' = "WARNING"
     ∧ ∃ outcome, steps st' !! "load" = Some outcome ∧ String.prefix "FAILED" outcome = true).
Proof.
  unfold run_pipeline.load_and_finish, mbind, run_bind, invoke. simpl.
  split_and!; try done.
  - by intros ->.
  - intros [->|[e ->]]; simpl; (split; [done|]);
      rewrite lookup_insert_eq; eauto.
Qed.

(** C5. When the first three stages went through with tables that are
    not empty, a load that returns False or raises ends the run with the
    overall status WARNING; whatever the load does, the status is not
    FAILED. *)
Theorem run_full_pipeline_load_failure_warns days_back page_size
    df_raw df_clean quality_report df_final avg_sentiment :
  extract_financial_news days_back page_size = Ok df_raw →
  empty df_raw = false →
  save_raw_data df_raw = Ok () →
  validate_news_data df_raw = Ok (df_clean, quality_report) →
  empty df_clean = false →
  save_quality_report quality_report = Ok () →
  add_sentiment_analysis df_clean = Ok df_final →
  empty df_final = false →
  save_transformed_data df_final = Ok () →
  format_mean df_final = Ok avg_sentiment →
  let '(log, st) := run_full_pipeline days_back page_size [] in
  log = [Call_extract_financial_news; Call_save_raw_data;
         Call_validate_news_data; Call_save_quality_report;
         Call_add_sentiment_analysis; Call_save_transformed_data;
         Call_load_to_duckdb]
  ∧ overall_status st ≠ "FAILED"
  ∧ (load_to_duckdb df_final = Ok false ∨ (∃ e, load_to_duckdb df_final = Raise e) →
     overall_status st = "WARNING")
  ∧ (load_to_duckdb df_final = Ok true → overall_status st = "SUCCESS").
Proof.
  intros Hextract Hraw Hsave1 Hvalidate Hclean Hsave2 Htransform Hfinal
    Hsave3 Hmean.
  unfold run_pipeline.run_full_pipeline, validate_and_after, transform_and_after.
  unfold mbind at 1 2 3 4 5 6, run_bind, invoke. simpl.
  rewrite Hextract, Hraw, Hsave1. simpl.
  rewrite Hvalidate, Hclean, Hsave2. simpl.
  rewrite Htransform, Hfinal, Hsave3. run_result. rewrite Hmean.
  match goal with
  | |- context [run_pipeline.load_and_finish _ _ df_final ?st ?log] =>
      pose proof (load_and_finish_status df_final st log) as Hload;
      destruct (run_pipeline.load_and_finish load_to_duckdb finished df_final st log)
        as [log' st'] eqn:Hrun
  end.
  cbv zeta in Hload. simpl in Hload.
  destruct Hload as (Hlog & _ & Hok & Hwarn). split_and!.
  - by rewrite Hlog.
  - destruct (load_to_duckdb df_final) as [[]|e] eqn:Hl.
    + by rewrite Hok.
    + destruct Hwarn as [-> _]; [by left | done].
    + destruct Hwarn as [-> _]; [right; by eexists | done].
  - intros H. by apply Hwarn.
  - intros H. by rewrite Hok.
Qed.
End facts.
End PipelineFacts.

(** *** Worked examples for the other stages *)
Module StageExamples.
Import Samples transform_sentiment extract_news load_to_database run_pipeline.
Import TransformFacts ExtractFacts LoadFacts PipelineFacts.

(** The bullish headline of the sample gets the label positive, the other
    article the label neutral. *)
Example transform_two_articles :
  ∃ out,
    add_sentiment_analysis sample_str sample_polarity sample_parse sample_unparsed = Ok out
    ∧ column "sentiment_label" out = Some [Str "positive"; Str "neutral"]
    ∧ column "day_of_week" out = Some [Str "Monday"; Str "Tuesday"].
Proof. eexists. split; [vm_compute; reflexivity|]. by split. Qed.

Lemma add_sentiment_analysis_labels_witness :
  ∃ out,
    rectangular sample_unparsed = true
    ∧ add_sentiment_analysis sample_str sample_polarity sample_parse sample_unparsed = Ok out
    ∧ len out = 2
    ∧ ∀ i, i < len out →
        ∃ x label,
          cell_at out "sentiment_compound" i = Some (Num x)
          ∧ cell_at out "sentiment_label" i = Some (Str label)
          ∧ label = categorize_sentiment x
          ∧ (label = "positive" ↔ (Q2Qc (5 # 100) ≤ x)%Qc)
          ∧ (label = "negative" ↔ (x ≤ Q2Qc (- 5 # 100))%Qc)
          ∧ (label = "neutral"
             ↔ (Q2Qc (- 5 # 100) < x)%Qc ∧ (x < Q2Qc (5 # 100))%Qc)
          ∧ label ∈ ["positive"; "negative"; "neutral"].
Proof.
  eexists. split; [reflexivity|].
  split; [vm_compute; reflexivity|].
  split; [reflexivity|].
  apply (add_sentiment_analysis_labels sample_str sample_polarity sample_parse
           sample_unparsed);
    [reflexivity | vm_compute; reflexivity].
Defined.


(** A well-formed answer gives the table of its articles, stamped. *)
Example extract_one_article :
  ∃ df,
    sample_extract sample_api_ok 7 50 = Ok df
    ∧ len df = 1
    ∧ column "source_name" df = Some [Str "Reuters"]
    ∧ column "publishedAt" df = Some [Time 1704067200000000]
    ∧ column "extracted_at" df = Some [Time sample_now].
Proof. eexists. split; [vm_compute; reflexivity|]. by split_and!. Qed.



(** The stages of the sample run. *)
Local Abbreviation sample_run answer cast :=
  (run_full_pipeline (sample_extract answer) sample_save sample_validate
     sample_save sample_transform sample_save sample_format_mean
     (sample_load cast) 1704715200000000 1704715260000000 7 50 []).

Lemma run_full_pipeline_stops_on_empty_extract_witness :
  ∃ df_raw st,
    sample_extract sample_api_nothing 7 50 = Ok df_raw
    ∧ empty df_raw = true
    ∧ sample_run sample_api_nothing sample_cast = ([Call_extract_financial_news], st)
    ∧ overall_status st = "FAILED"
    ∧ steps st = {["extract" := "FAILED - No data"]}
    ∧ end_time st = None
    ∧ (Call_validate_news_data ∉ (sample_run sample_api_nothing sample_cast).1)
    ∧ (Call_add_sentiment_analysis ∉ (sample_run sample_api_nothing sample_cast).1)
    ∧ (Call_load_to_duckdb ∉ (sample_run sample_api_nothing sample_cast).1).
Proof.
  destruct (run_full_pipeline_stops_on_empty_extract
              (sample_extract sample_api_nothing) sample_save sample_validate
              sample_save sample_transform sample_save sample_format_mean
              (sample_load sample_cast) 1704715200000000 1704715260000000
              7 50 [] eq_refl eq_refl) as [st Hst].
  by exists [], st.
Defined.

Lemma run_full_pipeline_load_failure_warns_witness :
  (sample_run sample_api_ok sample_cast_error).1
  = [Call_extract_financial_news; Call_save_raw_data;
     Call_validate_news_data; Call_save_quality_report;
     Call_add_sentiment_analysis; Call_save_transformed_data;
     Call_load_to_duckdb]
  ∧ overall_status (sample_run sample_api_ok sample_cast_error).2 = "WARNING"
  ∧ ∃ df_final, sample_load sample_cast_error df_final = Ok false
                ∧ empty df_final = false.
Proof.
  assert (∃ df_raw df_clean quality_report df_final,
            sample_extract sample_api_ok 7 50 = Ok df_raw
            ∧ sample_validate df_raw = Ok (df_clean, quality_report)
            ∧ sample_transform df_clean = Ok df_final)
    as (df_raw & df_clean & quality_report & df_final & Hraw & Hclean & Hfinal).
  { eexists _, _, _, _. split; [vm_compute; reflexivity|].
    split; [vm_compute; reflexivity|]. vm_compute; reflexivity. }
  pose proof (run_full_pipeline_load_failure_warns
                (sample_extract sample_api_ok) sample_save sample_validate
                sample_save sample_transform sample_save sample_format_mean
                (sample_load sample_cast_error) 1704715200000000 1704715260000000
                7 50 df_raw df_clean quality_report df_final "0.637" Hraw) as Hrun.
  assert (sample_load sample_cast_error df_final = Ok false
          ∧ empty df_final = false ∧ empty df_clean = false
          ∧ empty df_raw = false) as (Hload & Hne3 & Hne2 & Hne1).
  { injection Hraw as <-. injection Hclean as <- <-. injection Hfinal as <-.
    by split_and!. }
  specialize (Hrun Hne1 eq_refl Hclean Hne2 eq_refl Hfinal Hne3 eq_refl eq_refl).
  destruct (sample_run sample_api_ok sample_cast_error) as [log st].
  destruct Hrun as (Hlog & _ & Hwarn & _).
  split; [exact Hlog|]. split; [apply Hwarn; by left|]. eauto.
Defined.

End StageExamples.

(** * Further facts *)

(** ** Frames: more on columns *)
Module PandasMore.
Import PyFacts PandasFacts.

Lemma has_column_setitem c s (df : DataFrame) : has_column c (setitem c s df) = true.
Proof. unfold has_column. by rewrite column_setitem_eq. Qed.

Lemma has_column_setitem_mono c c' s (df : DataFrame) :
  has_column c df = true → has_column c (setitem c' s df) = true.
Proof.
  destruct (decide (c' = c)) as [->|Hne]; [intros _; apply has_column_setitem|].
  unfold has_column. by rewrite column_setitem_ne.
Qed.

Lemma has_column_setitem_ne c c' s (df : DataFrame) :
  c ≠ c' → has_column c' (setitem c s df) = has_column c' df.
Proof. intros Hne. unfold has_column. by rewrite column_setitem_ne. Qed.

Lemma len_setitem_replicate c (x : cell) (df : DataFrame) :
  df ≠ [] → len (setitem c (replicate (len df) x) df) = len df.
Proof.
  destruct df as [|[k s] df]; [done|]. intros _. simpl.
  destruct (String.eqb k c); simpl; [by rewrite length_replicate | done].
Qed.

(** What [pd.to_datetime] returns holds timestamps and nulls only. *)
Lemma to_datetime_cells parse (s parsed : Series) :
  to_datetime parse s = Ok parsed →
  Forall (λ c, c = Null ∨ ∃ t, c = Time t) parsed.
Proof.
  intros H. apply Forall_lookup. intros i y Hy.
  destruct (mapM_result_lookup _ _ _ _ _ H Hy) as (x & _ & Hx).
  unfold to_datetime_cell in Hx.
  destruct x; try destruct (parse _); simplify_eq; eauto.
Qed.

Lemma Forall_length_column n c s (df : DataFrame) :
  Forall (λ kv, length kv.2 = n) df → column c df = Some s → length s = n.
Proof.
  intros Hall Hc%column_elem_of. by apply (proj1 (Forall_forall _ _) Hall (c, s)).
Qed.

End PandasMore.

(** ** validate_data.py: what the call needs and what it keeps *)
Module ValidateMore.
Import PyFacts PandasFacts PandasMore validate_data ValidateFacts.

Lemma len_select_le flags (df : DataFrame) : len (select flags df) ≤ len df.
Proof.
  destruct df as [|[k s] df]; simpl; [done|].
  apply sublist_length, mask_sublist.
Qed.

(** Rows selected several times over. *)
Lemma columns_selections (fs : list (list bool)) (df : DataFrame) :
  columns (foldl (λ d f, select f d) df fs) = columns df.
Proof.
  revert df. induction fs as [|f fs IH]; intros df; simpl; [done|].
  by rewrite IH, columns_select.
Qed.

Lemma len_selections (fs : list (list bool)) (df : DataFrame) :
  len (foldl (λ d f, select f d) df fs) ≤ len df.
Proof.
  revert df. induction fs as [|f fs IH]; intros df; simpl; [done|].
  etrans; [apply IH | apply len_select_le].
Qed.


Lemma rectangular_selections (fs : list (list bool)) (df : DataFrame) :
  rectangular df = true → rectangular (foldl (λ d f, select f d) df fs) = true.
Proof.
  revert df. induction fs as [|f fs IH]; intros df Hrect; simpl; [done|].
  by apply IH, rectangular_select.
Qed.

(** Cleaning is a selection of rows, made in at most four steps. *)
Lemma clean_selection (df out : DataFrame) :
  clean df = Ok out → ∃ fs, out = foldl (λ d f, select f d) df fs.
Proof.
  unfold clean, dropna, drop_duplicates.
  intros (dfA & HA & H)%bind_Ok.
  apply bind_Ok in HA as (keys & _ & [= <-]).
  apply bind_Ok in H as (dfB & HB & H).
  apply bind_Ok in HB as (dup & _ & [= <-]).
  injection H as <-.
  set (m1 := forallb notnull <$> keys). set (m2 := negb <$> dup).
  destruct (column "title" (select m2 (select m1 df))) as [t|].
  - destruct (column "description" _) as [d|].
    + by exists [m1; m2; len_ge 10 <$> t; len_ge 20 <$> d].
    + by exists [m1; m2; len_ge 10 <$> t].
  - destruct (column "description" _) as [d|].
    + by exists [m1; m2; len_ge 20 <$> d].
    + by exists [m1; m2].
Qed.

(** Indexing by flags that are all True changes nothing. *)
Lemma mask_all_true {A} (flags : list bool) (s : list A) :
  Forall (λ b, b = true) flags → length s ≤ length flags → mask flags s = s.
Proof.
  revert s. induction flags as [|b flags IH]; intros [|x s]; simpl; try done.
  - lia.
  - intros [-> Hflags]%Forall_cons Hlen. f_equal. apply IH; [done | lia].
Qed.

Lemma select_all_true (flags : list bool) (df : DataFrame) :
  Forall (λ b, b = true) flags → rectangular df = true →
  len df ≤ length flags → select flags df = df.
Proof.
  intros Hflags Hrect%rectangular_Forall Hlen. unfold select.
  rewrite <-(list_fmap_id df) at 2. apply list_fmap_ext.
  intros i [k s] Hks. simpl. unfold prod_map. simpl. f_equal.
  apply mask_all_true; [done|].
  rewrite Forall_forall in Hrect.
  assert (length s = len df) as ->; [|done].
  apply (Hrect (k, s)). by eapply list_elem_of_lookup_2.
Qed.

Lemma duplicated_from_NoDup (seen keys : list (list cell)) :
  NoDup keys → (∀ k, k ∈ keys → k ∉ seen) →
  Forall (λ b, b = true) (negb <$> duplicated_from seen keys).
Proof.
  revert seen. induction keys as [|k keys IH]; intros seen; simpl; [constructor|].
  intros [Hk Hnd]%NoDup_cons Hseen. constructor.
  - rewrite bool_decide_eq_false_2; [done|]. apply Hseen. by left.
  - apply IH; [done|]. intros k' Hk' [->|Hin]%elem_of_cons; [done|].
    apply (Hseen k'); [by right | done].
Qed.

Lemma Forall_zip_with_both {A B C} (f : A → B → C) (P : A → Prop) (Q : B → Prop)
    (R : C → Prop) (l : list A) (k : list B) :
  (∀ x y, P x → Q y → R (f x y)) → Forall P l → Forall Q k →
  Forall R (zip_with f l k).
Proof.
  intros Hf Hl. revert k. induction Hl as [|x l Hx Hl IH]; intros k Hk; simpl;
    [constructor|].
  destruct Hk as [|y k Hy Hk]; constructor; auto.
Qed.

Section facts.
Variable parse_datetime : cell → option Z.
Variable now : Z.

(** X1. A call that returns on a frame that is not empty has found the
    title, description and publishedAt columns: the tests
    [if 'title' in df.columns] of lines 90-93 and 120-123 never meet a
    frame without them. *)
Theorem validate_news_data_needs_columns (df df' out : DataFrame) rep :
  empty df = false →
  validate_news_data parse_datetime now df = (df', Ok (out, rep)) →
  has_column "title" df = true
  ∧ has_column "description" df = true
  ∧ has_column "publishedAt" df = true.
Proof.
  intros Hempty Hcall.
  apply validate_news_data_inv in Hcall as (checked & Hchecks & Hclean & _);
    [|done].
  assert (Hdesc : column "description" df' = column "description" df).
  { apply run_checks_frame in Hchecks
      as [->|(published & parsed & _ & _ & ->)]; [done|].
    by rewrite column_setitem_ne. }
  apply run_checks_report in Hchecks as (flags & Hflags & _).
  unfold duplicated in Hflags. apply bind_Ok in Hflags as (keys & Hkeys & _).
  apply subset_rows_pair in Hkeys as (t & p & Ht & Hp & _).
  unfold clean, dropna in Hclean. apply bind_Ok in Hclean as (dfA & HA & _).
  apply bind_Ok in HA as (keys1 & Hkeys1 & _).
  apply subset_rows_pair in Hkeys1 as (t1 & d1 & _ & Hd1 & _).
  rewrite Hdesc in Hd1. unfold has_column. by rewrite Ht, Hp, Hd1.
Qed.

(** X2. On a frame that is not empty and has no title or no publishedAt
    column, check 2 raises KeyError (line 56) and the caller's frame is as it
    was. *)
Theorem validate_news_data_missing_key (df : DataFrame) :
  empty df = false →
  column "title" df = None ∨ column "publishedAt" df = None →
  ∃ key,
    validate_news_data parse_datetime now df = (df, Raise (KeyError key))
    ∧ key ∈ ["title"; "publishedAt"].
Proof.
  intros Hempty Hmissing. unfold validate_news_data, run_checks.
  rewrite Hempty.
  assert (∃ key, duplicated ["title"; "publishedAt"] df = Raise (KeyError key)
                 ∧ key ∈ ["title"; "publishedAt"]) as (key & -> & Hkey).
  { unfold duplicated, subset_rows, getcol. simpl.
    destruct (column "title" df) as [t|]; run_result.
    - destruct Hmissing as [?| ->]; [done|]. run_result.
      exists "publishedAt". split; [done|]. by apply (bool_decide_unpack _).
    - exists "title". split; [done|]. by apply (bool_decide_unpack _). }
  by exists key.
Qed.

(** The table returned is a selection of rows of the caller's frame, which
    has the labels and the length of the input. *)
Lemma validate_news_data_selection (df df' out : DataFrame) rep :
  validate_news_data parse_datetime now df = (df', Ok (out, rep)) →
  ∃ fs, out = foldl (λ d f, select f d) df' fs
        ∧ columns df' = columns df ∧ len df' = len df.
Proof.
  intros Hcall. destruct (empty df) eqn:Hempty.
  { unfold validate_news_data in Hcall. rewrite Hempty in Hcall.
    injection Hcall as <- <- _. by exists []. }
  apply validate_news_data_inv in Hcall as (checked & Hchecks & Hclean & _);
    [|done].
  apply clean_selection in Hclean as [fs ->]. exists fs. split_and!; [done|..].
  - apply run_checks_frame in Hchecks
      as [->|(published & parsed & Hcol & _ & ->)]; [done|].
    by eapply columns_setitem.
  - by eapply run_checks_len.
Qed.


Lemma removal_rate_bounds (removed : Z) (initial : nat) :
  0 < initial → (0 ≤ removed ≤ Z.of_nat initial)%Z →
  (Qc_of_Z 0 ≤ removal_rate removed initial)%Qc
  ∧ (removal_rate removed initial ≤ Qc_of_Z 100)%Qc.
Proof.
  intros Hpos Hremoved. unfold removal_rate. rewrite (proj2 (Nat.ltb_lt _ _) Hpos).
  unfold Qcle, Qcdiv, Qcmult, Qcinv, Qc_of_Z, Q2Qc. simpl.
  rewrite !Qred_correct.
  destruct (Z.of_nat initial) as [|p|p] eqn:Hi; [lia| |lia].
  unfold Qle, Qmult, Qinv, inject_Z. simpl. split; nia.
Qed.

(** X4. The counts of the report add up: the rows removed are the initial
    rows less the final ones, never a negative number, and the removal
    percentage lies between 0 and 100. *)
Theorem validate_news_data_counts (df df' out : DataFrame) rep :
  empty df = false →
  validate_news_data parse_datetime now df = (df', Ok (out, rep)) →
  ∃ removed percentage,
    initial_records rep = Some (len df)
    ∧ final_records rep = Some (len out)
    ∧ removed_records rep = Some removed
    ∧ removal_percentage rep = Some percentage
    ∧ (Z.of_nat (len df) = Z.of_nat (len out) + removed)%Z
    ∧ (0 ≤ removed)%Z
    ∧ (Qc_of_Z 0 ≤ percentage)%Qc ∧ (percentage ≤ Qc_of_Z 100)%Qc.
Proof.
  intros Hempty Hcall.
  assert (Hle : len out ≤ len df).
  { apply validate_news_data_selection in Hcall as (fs & -> & _ & <-).
    apply len_selections. }
  apply validate_news_data_inv in Hcall as (checked & _ & _ & ->); [|done].
  apply nonempty_len in Hempty.
  eexists _, _. split_and!.
  1-4: unfold summarize; cbv zeta; by repeat case_match.
  - lia.
  - lia.
  - apply removal_rate_bounds; lia.
  - apply removal_rate_bounds; lia.
Qed.

(** X5. Cleaning a cleaned table changes nothing: no row of it has a null
    or short title or description, and no key occurs twice. *)
Theorem clean_idempotent (df out : DataFrame) :
  rectangular df = true → clean df = Ok out → clean out = Ok out.
Proof.
  intros Hrect Hclean.
  apply clean_columns in Hclean
    as (t & d & p & Ht & Hd & Hp & Hlong_t & Hlong_d & Hkeys & Hrect_out);
    [|done].
  assert (Hlen_t : length t = len out) by eauto using rectangular_column.
  assert (Hlen_d : length d = len out) by eauto using rectangular_column.
  assert (Hlen_p : length p = len out) by eauto using rectangular_column.
  unfold clean, dropna, drop_duplicates, duplicated.
  rewrite (subset_rows_pair_Ok _ _ _ _ _ Ht Hd).
  rewrite zip_rows_pair by done. run_result.
  rewrite select_all_true; [|..|done|].
  - rewrite (subset_rows_pair_Ok _ _ _ _ _ Ht Hp).
    rewrite zip_rows_pair by done. run_result.
    rewrite select_all_true; [|..|done|].
    + rewrite Ht. rewrite select_all_true; [|..|done|].
      * rewrite Hd. rewrite select_all_true; [done|..|done|].
        -- apply Forall_fmap. by eapply Forall_impl; [exact Hlong_d|].
        -- rewrite length_fmap. lia.
      * apply Forall_fmap. by eapply Forall_impl; [exact Hlong_t|].
      * rewrite length_fmap. lia.
    + apply duplicated_from_NoDup; [done|]. intros k _. apply not_elem_of_nil.
    + rewrite length_fmap.
      assert (∀ seen keys, length (duplicated_from seen keys) = length keys) as ->.
      { intros seen keys. revert seen.
        induction keys as [|k keys IH]; intros seen; simpl; [done|].
        by rewrite IH. }
      rewrite length_zip_with. lia.
  - apply Forall_fmap.
    eapply (Forall_zip_with_both _ _ _ _ t d); [|exact Hlong_t|exact Hlong_d].
    intros x y Hx%len_ge_notnull Hy%len_ge_notnull. simpl.
    by destruct x, y.
  - rewrite length_fmap, length_zip_with. lia.
Qed.

(** X6. The table returned is empty exactly when the status of the report
    is FAILED: the runner's test [df_clean.empty] and the report agree, and
    a WARNING or PASSED report comes with rows. *)
Theorem validate_news_data_failed_iff_empty (df df' out : DataFrame) rep :
  validate_news_data parse_datetime now df = (df', Ok (out, rep)) →
  empty out = true ↔ status rep = "FAILED".
Proof.
  intros Hcall. destruct (empty df) eqn:Hempty.
  { unfold validate_news_data in Hcall. rewrite Hempty in Hcall.
    by injection Hcall as <- <- <-. }
  assert (Hcols : columns out = columns df).
  { apply validate_news_data_selection in Hcall as (fs & -> & <- & _).
    apply columns_selections. }
  apply validate_news_data_inv in Hcall as (checked & _ & _ & ->); [|done].
  pose proof (summarize_status now (len df) checked out) as (_ & Hfailed & _).
  cbv zeta in Hfailed. rewrite Hfailed.
  unfold empty in *. rewrite Hcols.
  apply orb_false_elim in Hempty as [-> _]. simpl.
  apply Nat.eqb_eq.
Qed.
End facts.
End ValidateMore.

(** ** validate_data.py: what the report counts *)
Module ValidateReport.
Import PyFacts PandasFacts PandasMore validate_data ValidateFacts.

Lemma foldr_min_spec (t : Z) (ts : list Z) :
  foldr Z.min t ts ∈ t :: ts ∧ ∀ x, x ∈ t :: ts → (foldr Z.min t ts ≤ x)%Z.
Proof.
  induction ts as [|u ts [Hin Hle]]; simpl.
  - split; [by left|]. intros x ->%list_elem_of_singleton. lia.
  - split.
    + destruct (Z.min_spec u (foldr Z.min t ts)) as [[_ ->]|[_ ->]].
      * right. by left.
      * apply elem_of_cons in Hin as [->|Hin]; [by left | by do 2 right].
    + intros x [->|[->|Hx]%elem_of_cons]%elem_of_cons.
      * assert (t ∈ t :: ts) as Ht%Hle by (by left). lia.
      * lia.
      * assert (x ∈ t :: ts) as Hx'%Hle by (by right). lia.
Qed.

Lemma foldr_max_spec (t : Z) (ts : list Z) :
  foldr Z.max t ts ∈ t :: ts ∧ ∀ x, x ∈ t :: ts → (x ≤ foldr Z.max t ts)%Z.
Proof.
  induction ts as [|u ts [Hin Hle]]; simpl.
  - split; [by left|]. intros x ->%list_elem_of_singleton. lia.
  - split.
    + destruct (Z.max_spec u (foldr Z.max t ts)) as [[_ ->]|[_ ->]].
      * apply elem_of_cons in Hin as [->|Hin]; [by left | by do 2 right].
      * right. by left.
    + intros x [->|[->|Hx]%elem_of_cons]%elem_of_cons.
      * assert (t ∈ t :: ts) as Ht%Hle by (by left). lia.
      * lia.
      * assert (x ∈ t :: ts) as Hx'%Hle by (by right). lia.
Qed.

Lemma checks_summarize now n checked (out : DataFrame) :
  checks (summarize now n checked out) = Some checked.
Proof. unfold summarize. by repeat case_match. Qed.

Lemma count_true_le (flags : list bool) : count_true flags ≤ length flags.
Proof. apply length_filter. Qed.

Lemma count_true_fmap_le {A} (f : A → bool) (s : list A) :
  count_true (f <$> s) ≤ length s.
Proof. etrans; [apply count_true_le | by rewrite length_fmap]. Qed.

Lemma length_duplicated_from (seen keys : list (list cell)) :
  length (duplicated_from seen keys) = length keys.
Proof.
  revert seen. induction keys as [|k keys IH]; intros seen; simpl; [done|].
  by rewrite IH.
Qed.

(** The first row is never a duplicate. *)
Lemma count_duplicated_lt (keys : list (list cell)) :
  keys ≠ [] → count_true (duplicated_from [] keys) < length keys.
Proof.
  destruct keys as [|k keys]; [done|]. intros _. cbn [duplicated_from].
  pose proof (count_true_le (duplicated_from [k] keys)) as Hle.
  rewrite length_duplicated_from in Hle.
  assert (bool_decide (k ∈ []) = false) as ->.
  { apply bool_decide_eq_false_2. intros H. by apply elem_of_nil in H. }
  unfold count_true in *. rewrite filter_cons_False by (by intros []).
  simpl. lia.
Qed.

Lemma foldl_missing_lookup (df : DataFrame) fields (m : gmap string nat) field :
  foldl (λ missing_counts field,
           match column field df with
           | Some s => <[field := count_true (isnull <$> s)]> missing_counts
           | None => <[field := len df]> missing_counts
           end) m fields !! field
  = if bool_decide (field ∈ fields)
    then Some (from_option (λ s, count_true (isnull <$> s)) (len df) (column field df))
    else m !! field.
Proof.
  revert m. induction fields as [|f fields IH]; intros m; simpl; [done|].
  rewrite IH.
  assert (Hstep : match column f df with
                  | Some s => <[f := count_true (isnull <$> s)]> m
                  | None => <[f := len df]> m
                  end
                  = <[f := from_option (λ s, count_true (isnull <$> s)) (len df)
                             (column f df)]> m) by (by destruct (column f df)).
  rewrite Hstep. clear Hstep.
  destruct (decide (field ∈ fields)) as [Hin|Hout].
  - rewrite !bool_decide_eq_true_2; [done | by right | done].
  - rewrite (bool_decide_eq_false_2 (field ∈ fields)) by done.
    destruct (decide (f = field)) as [->|Hne].
    + rewrite lookup_insert_eq. by rewrite bool_decide_eq_true_2 by left.
    + rewrite lookup_insert_ne by done.
      rewrite bool_decide_eq_false_2; [done|].
      by intros [->|?]%elem_of_cons.
Qed.

(** Check 1 has one entry per critical field. *)
Lemma check_missing_lookup (df : DataFrame) field :
  check_missing df !! field
  = if bool_decide (field ∈ critical_fields)
    then Some (from_option (λ s, count_true (isnull <$> s)) (len df) (column field df))
    else None.
Proof. unfold check_missing. by rewrite foldl_missing_lookup, lookup_empty. Qed.

Section facts.
Variable parse_datetime : cell → option Z.
Variable now : Z.

Local Abbreviation check_freshness := (check_freshness parse_datetime now).
Local Abbreviation run_checks := (run_checks parse_datetime now).
Local Abbreviation validate_news_data := (validate_news_data parse_datetime now).

(** X7. When the report has a freshness entry, the publishedAt column
    the caller's frame is left with holds timestamps and nulls only; the
    entry's oldest and newest are timestamps of that column and bound
    every timestamp in it, and the span is the whole number of days from
    the oldest to the time of the call. *)
Theorem validate_news_data_freshness_bounds (df df' out : DataFrame) rep checked fresh :
  validate_news_data df = (df', Ok (out, rep)) →
  checks rep = Some checked →
  freshness checked = Some fresh →
  ∃ published,
    column "publishedAt" df' = Some published
    ∧ Forall (λ c, c = Null ∨ ∃ t, c = Time t) published
    ∧ oldest fresh ∈ timestamps published
    ∧ newest fresh ∈ timestamps published
    ∧ (∀ t, t ∈ timestamps published → (oldest fresh ≤ t ≤ newest fresh)%Z)
    ∧ span_days fresh = ((now - oldest fresh) `div` microseconds_per_day)%Z.
Proof.
  intros Hcall Hchecks Hfresh. destruct (empty df) eqn:Hempty.
  { unfold validate_data.validate_news_data in Hcall. rewrite Hempty in Hcall.
    injection Hcall as _ _ <-. done. }
  apply validate_news_data_inv in Hcall as (checked' & Hrun & _ & ->); [|done].
  rewrite checks_summarize in Hchecks. injection Hchecks as ->.
  unfold validate_data.run_checks in Hrun.
  destruct (duplicated _ df) as [flags|e]; [|done]. cbv zeta in Hrun.
  destruct (0 <? count_true flags).
  { injection Hrun as _ <-. done. }
  destruct (check_freshness df) as [df1 [fresh'|e]] eqn:Hcheck; [|done].
  injection Hrun as -> <-. simpl in Hfresh. subst fresh'.
  unfold validate_data.check_freshness in Hcheck.
  destruct (column "publishedAt" df) as [published|]; [|done].
  destruct (to_datetime parse_datetime published) as [parsed|e] eqn:Hparsed;
    [|done].
  cbv zeta in Hcheck. unfold series_min, series_max in Hcheck.
  destruct (timestamps parsed) as [|t ts] eqn:Hts; [done|].
  injection Hcheck as <- <-. simpl.
  exists parsed. rewrite column_setitem_eq, Hts.
  destruct (foldr_min_spec t ts) as [Hmin Hlo].
  destruct (foldr_max_spec t ts) as [Hmax Hhi].
  split_and!; try done.
  - by eapply to_datetime_cells.
  - intros x Hx. split; [by apply Hlo | by apply Hhi].
Qed.

Lemma run_checks_fields (df df1 : DataFrame) checked :
  run_checks df = (df1, Ok checked) →
  missing_values checked = check_missing df
  ∧ content_quality checked = check_content df1.
Proof.
  unfold validate_data.run_checks.
  destruct (duplicated _ df) as [flags|e]; [|done]. cbv zeta.
  destruct (if 0 <? count_true flags then _ else _) as [df2 [fresh|e]]; [|done].
  by intros [= <- <-].
Qed.

(** X8. The counts of the report never exceed the table: on a
    rectangular input, check 1 has an entry for each of the four critical
    fields and no other, each at most the number of rows and equal to it
    for a field that is no column; check 2 counts fewer duplicates than
    there are rows; check 4 counts at most as many short titles and short
    descriptions as there are rows. *)
Theorem validate_news_data_check_counts (df df' out : DataFrame) rep checked :
  rectangular df = true →
  validate_news_data df = (df', Ok (out, rep)) →
  checks rep = Some checked →
  (∀ field, is_Some (missing_values checked !! field) ↔ field ∈ critical_fields)
  ∧ (∀ field n, missing_values checked !! field = Some n →
       n ≤ len df ∧ (has_column field df = false → n = len df))
  ∧ duplicates checked < len df
  ∧ short_titles (content_quality checked) ≤ len df
  ∧ short_descriptions (content_quality checked) ≤ len df.
Proof.
  intros Hrect Hcall Hchecks. destruct (empty df) eqn:Hempty.
  { unfold validate_data.validate_news_data in Hcall. rewrite Hempty in Hcall.
    injection Hcall as _ _ <-. done. }
  apply validate_news_data_inv in Hcall as (checked' & Hrun & _ & ->); [|done].
  rewrite checks_summarize in Hchecks. injection Hchecks as ->.
  destruct (run_checks_fields _ _ _ Hrun) as [-> ->].
  pose proof (run_checks_rectangular _ _ _ _ _ Hrect Hrun) as Hrect'.
  pose proof (run_checks_len _ _ _ _ _ Hrun) as Hlen'.
  apply run_checks_report in Hrun as (flags & Hflags & -> & _).
  split_and!.
  - intros field. rewrite check_missing_lookup.
    case_bool_decide; split; try done. all: try by intros [? ?].
  - intros field n. rewrite check_missing_lookup.
    case_bool_decide; [|done]. intros [= <-]. unfold has_column.
    destruct (column field df) as [s|] eqn:Hs; simpl; [|done].
    split; [|done]. rewrite <-(rectangular_column _ _ _ Hrect Hs).
    apply count_true_fmap_le.
  - unfold duplicated in Hflags.
    apply bind_Ok in Hflags as (keys & Hkeys & [= <-]).
    apply subset_rows_pair in Hkeys as (sa & sb & Ha & Hb & ->).
    pose proof (rectangular_column _ _ _ Hrect Ha) as Hla.
    pose proof (rectangular_column _ _ _ Hrect Hb) as Hlb.
    rewrite zip_rows_pair by done.
    assert (Hlen : length (zip_with (λ x y : cell, [x; y]) sa sb) = len df).
    { rewrite length_zip_with. lia. }
    rewrite <-Hlen. apply count_duplicated_lt. intros Hnil.
    rewrite Hnil in Hlen. apply nonempty_len in Hempty. simpl in Hlen. lia.
  - unfold check_content. simpl. rewrite <-Hlen'.
    destruct (column "title" df') as [s|] eqn:Hs; [|lia].
    rewrite <-(rectangular_column _ _ _ Hrect' Hs). apply count_true_fmap_le.
  - unfold check_content. simpl. rewrite <-Hlen'.
    destruct (column "description" df') as [s|] eqn:Hs; [|lia].
    rewrite <-(rectangular_column _ _ _ Hrect' Hs). apply count_true_fmap_le.
Qed.
End facts.
End ValidateReport.

(** ** validate_data.py: the report file *)
Module ReportFileFacts.
Import PyFacts PandasFacts PandasMore validate_data ValidateFacts validate_data_report.

Lemma append_assoc (a b c : string) : (a +:+ b) +:+ c = a +:+ b +:+ c.
Proof.
  induction a as [|x a IH]; [reflexivity|].
  change (String x ((a +:+ b) +:+ c) = String x (a +:+ b +:+ c)).
  by rewrite IH.
Qed.

Lemma append_empty_r (a : string) : a +:+ "" = a.
Proof.
  induction a as [|x a IH]; [reflexivity|].
  change (String x (a +:+ "") = String x a). by rewrite IH.
Qed.

(** Texts that all evaluate are all written, one after the other. *)
Lemma write_all_texts (writes : list (result string)) (text : string) :
  Forall (λ w, ∃ s, w = Ok s) writes →
  ∃ body, write_all writes text = (text +:+ body, Ok ()).
Proof.
  intros Hwrites. revert text.
  induction Hwrites as [|w writes [s ->] _ IH]; intros text; simpl.
  - exists "". by rewrite append_empty_r.
  - destruct (IH (text +:+ s)) as [body ->]. exists (s +:+ body).
    by rewrite append_assoc.
Qed.

Section facts.
Variable parse_datetime : cell → option Z.
Variable now : Z.
Variable open_error : string → option string.
Variable isoformat : Z → string.
Variable format_1f : Qc → string.
Variable str_missing : gmap string nat → string.
Variable str_freshness : freshness_report → string.
Variable str_content : content_report → string.

Local Abbreviation save_quality_report :=
  (save_quality_report open_error isoformat format_1f str_missing
     str_freshness str_content).
Local Abbreviation report_writes :=
  (report_writes isoformat format_1f str_missing str_freshness str_content).

(** X9. The report of an empty input cannot be saved: the file is opened,
    the two header lines are written, and [report['timestamp']] raises
    KeyError (line 161); the file is left with the header alone. This is the
    path of the script's own main block on a table without rows. *)
Theorem save_quality_report_of_empty_input (df df' out : DataFrame) rep
    filename (fs : files) :
  empty df = true →
  validate_news_data parse_datetime now df = (df', Ok (out, rep)) →
  open_error ("../data/" +:+ filename) = None →
  save_quality_report rep filename fs
  = (<["../data/" +:+ filename := report_header]> fs, Raise (KeyError "timestamp")).
Proof.
  intros Hempty Hcall Hopen. unfold validate_news_data in Hcall.
  rewrite Hempty in Hcall. injection Hcall as _ _ <-.
  unfold validate_data_report.save_quality_report. by rewrite Hopen.
Qed.

(** X10. The report of an input that is not empty is always saved unless
    the file cannot be opened: no key is missing. The text starts with the
    header, the time of the run and the status, and no other file is
    touched. *)
Theorem save_quality_report_of_run (df df' out : DataFrame) rep
    filename (fs fs' : files) outcome :
  empty df = false →
  validate_news_data parse_datetime now df = (df', Ok (out, rep)) →
  save_quality_report rep filename fs = (fs', outcome) →
  (∃ msg, open_error ("../data/" +:+ filename) = Some msg
          ∧ outcome = Raise (OSError msg) ∧ fs' = fs)
  ∨ (open_error ("../data/" +:+ filename) = None
     ∧ outcome = Ok ()
     ∧ (∀ path, path ≠ "../data/" +:+ filename → fs' !! path = fs !! path)
     ∧ ∃ body,
         fs' !! ("../data/" +:+ filename)
         = Some (report_header +:+ "Timestamp: " +:+ isoformat now +:+ nl
                 +:+ "Status: " +:+ status rep +:+ nl +:+ nl +:+ body)).
Proof.
  intros Hempty Hcall.
  apply validate_news_data_inv in Hcall as (checked & _ & _ & ->); [|done].
  unfold validate_data_report.save_quality_report.
  destruct (open_error _) as [msg|]; [intros [= <- <-]; left; eauto|].
  set (rep := summarize now (len df) checked out).
  assert (Hkeys : timestamp rep = Some now ∧ is_Some (initial_records rep)
                  ∧ is_Some (final_records rep) ∧ is_Some (removed_records rep)
                  ∧ is_Some (removal_percentage rep) ∧ checks rep = Some checked).
  { unfold rep, summarize. cbv zeta. by repeat case_match. }
  destruct Hkeys as (Ht & [n1 H1] & [n2 H2] & [r H3] & [q H4] & H5).
  unfold validate_data_report.report_writes.
  rewrite Ht, H1, H2, H3, H4, H5. run_result.
  match goal with
  | |- context [write_all ?ws ?text] =>
      destruct (write_all_texts ws text) as [body ->]
  end.
  { repeat (constructor; [by eexists|]).
    apply Forall_forall. intros w Hw.
    apply list_elem_of_bind in Hw as ([name data] & Hw & _).
    apply elem_of_cons in Hw as [->|Hw]; [by eexists|].
    apply list_elem_of_singleton in Hw as ->. by eexists. }
  intros [= <- <-]. right. split_and!; try done.
  - intros path Hpath. by rewrite lookup_insert_ne.
  - rewrite lookup_insert_eq. eexists. apply (f_equal Some).
    unfold report_header. rewrite !append_assoc. simpl. reflexivity.
Qed.
End facts.
End ReportFileFacts.

(** ** transform_sentiment.py: the shape of the enriched table *)
Module TransformMore.
Import PyFacts PandasFacts PandasMore transform_sentiment TransformFacts.

Lemma has_column_app_l c (df df2 : DataFrame) :
  has_column c df = true → has_column c (df ++ df2) = true.
Proof. unfold has_column. rewrite column_app. by destruct (column c df). Qed.

Lemma has_column_app_r c (df df2 : DataFrame) :
  has_column c df2 = true → has_column c (df ++ df2) = true.
Proof. unfold has_column. rewrite column_app. by destruct (column c df). Qed.

Lemma negative_threshold_opp : negative_threshold = (- positive_threshold)%Qc.
Proof. by apply Qc_is_canon. Qed.

(** X11. The label never goes down when the compound score goes up: above
    a positive score every score is positive, below a negative one every
    score is negative. *)
Theorem categorize_sentiment_monotone (x y : Qc) :
  (x ≤ y)%Qc →
  (categorize_sentiment x = "positive" → categorize_sentiment y = "positive")
  ∧ (categorize_sentiment y = "negative" → categorize_sentiment x = "negative").
Proof.
  intros Hxy.
  destruct (categorize_sentiment_cases x) as (Hpx & Hnx & _).
  destruct (categorize_sentiment_cases y) as (Hpy & Hny & _).
  rewrite Hpx, Hpy, Hnx, Hny. split; intros H; by eapply Qcle_trans.
Qed.

(** X12. The two thresholds mirror each other: the opposite score gets the
    opposite label, and a neutral score stays neutral. *)
Theorem categorize_sentiment_opposite (x : Qc) :
  (categorize_sentiment (- x) = "positive" ↔ categorize_sentiment x = "negative")
  ∧ (categorize_sentiment (- x) = "negative" ↔ categorize_sentiment x = "positive")
  ∧ (categorize_sentiment (- x) = "neutral" ↔ categorize_sentiment x = "neutral").
Proof.
  destruct (categorize_sentiment_cases x) as (Hpx & Hnx & Hzx & _).
  destruct (categorize_sentiment_cases (- x)) as (Hpo & Hno & Hzo & _).
  rewrite Hpx, Hnx, Hzx, Hpo, Hno, Hzo, negative_threshold_opp.
  assert (Hle : ∀ a b : Qc, (a ≤ b)%Qc ↔ (- b ≤ - a)%Qc).
  { intros a b. split; [apply Qcopp_le_compat|].
    intros H%Qcopp_le_compat. by rewrite !Qcopp_involutive in H. }
  assert (Hlt : ∀ a b : Qc, (a < b)%Qc ↔ (- b < - a)%Qc).
  { intros a b. split; intros H; apply Qcnot_le_lt; intros H';
      [apply Hle in H' | apply Hle in H']; by apply Qcle_not_lt in H'. }
  split_and!.
  - by rewrite (Hle positive_threshold), Qcopp_involutive.
  - by rewrite (Hle (- x)%Qc), !Qcopp_involutive.
  - rewrite (Hlt (- positive_threshold)%Qc (- x)%Qc), (Hlt (- x)%Qc).
    rewrite !Qcopp_involutive. tauto.
Qed.

Section facts.
Variable py_str : cell → string.
Variable polarity_scores : string → scores.
Variable parse_datetime : cell → option Z.

(** X13. The enriched table of an input that is not empty has the rows of
    the input, one for one, and is never empty; it has every column of the
    input and the five sentiment columns, and the three date columns when
    the input has a publishedAt column; the cells of the input are as they
    were, apart from the parsed publishedAt and the columns of these names
    that the input had already. *)
Theorem add_sentiment_analysis_shape (df out : DataFrame) :
  rectangular df = true → empty df = false →
  add_sentiment_analysis py_str polarity_scores parse_datetime df = Ok out →
  len out = len df ∧ empty out = false ∧ rectangular out = true
  ∧ (∀ c, has_column c df = true → has_column c out = true)
  ∧ (∀ c, c ∈ ["sentiment_compound"; "sentiment_positive"; "sentiment_negative";
               "sentiment_neutral"; "sentiment_label"] →
          has_column c out = true)
  ∧ (has_column "publishedAt" df = true →
     ∀ c, c ∈ ["date"; "hour"; "day_of_week"] → has_column c out = true)
  ∧ (∀ c s, c ∉ ["publishedAt"; "date"; "hour"; "day_of_week"; "sentiment_label"] →
            column c df = Some s → column c out = Some s).
Proof.
  intros Hrect Hempty. unfold add_sentiment_analysis. rewrite Hempty.
  destruct (has_column "sentiment_compound" df) eqn:Hold; [done|].
  set (analyzed := analyze_articles py_str polarity_scores df).
  assert (Hcompound : column "sentiment_compound" df = None).
  { unfold has_column in Hold. by destruct (column _ df). }
  unfold getcol. rewrite column_app, Hcompound. simpl. run_result.
  rewrite apply_categorize_scores. run_result.
  set (labels := (Str ∘ categorize_sentiment ∘ compound) <$> analyzed).
  set (sentiment_df := [_; _; _; _]).
  set (df2 := setitem "sentiment_label" labels (df ++ sentiment_df)).
  intros Hdates.
  assert (Hn : length analyzed = len df) by by apply length_analyze_articles.
  assert (Hdf : df ≠ []) by (intros ->; done).
  assert (Hshape2 : Forall (λ kv, length kv.2 = len df) df2).
  { apply Forall_length_setitem; [subst labels; by rewrite length_fmap|].
    apply Forall_app. split; [by apply rectangular_Forall|].
    repeat constructor; simpl; by rewrite length_fmap. }
  pose proof (add_date_features_frame polarity_scores parse_datetime (len df)
                _ _ Hdates) as (Hkeep & Hshape & Hnil).
  assert (Hlen : len out = len df).
  { apply len_Forall; [apply Hnil, setitem_not_nil | by apply Hshape]. }
  assert (Hmono : ∀ c, has_column c df2 = true → has_column c out = true).
  { intros c Hc. unfold add_date_features in Hdates.
    destruct (column "publishedAt" df2); [|by injection Hdates as <-].
    apply bind_Ok in Hdates as (parsed & _ & [= <-]).
    by do 4 apply has_column_setitem_mono. }
  split_and!.
  - done.
  - unfold empty. rewrite Hlen. apply nonempty_len in Hempty.
    apply orb_false_intro; [|apply Nat.eqb_neq; lia].
    apply bool_decide_eq_false. intros Hcols. apply (Hnil (setitem_not_nil _ _ _)).
    by destruct out.
  - apply rectangular_Forall. rewrite Hlen. by apply Hshape.
  - intros c Hc. by apply Hmono, has_column_setitem_mono, has_column_app_l.
  - intros c Hc. apply Hmono.
    subst df2.
    repeat (apply elem_of_cons in Hc as [->|Hc]);
      [by apply has_column_setitem_mono, has_column_app_r..
      |apply has_column_setitem
      |by apply elem_of_nil in Hc].
  - intros Hpub c Hc. unfold add_date_features in Hdates.
    assert (has_column "publishedAt" df2 = true) as Hpub2
      by by apply has_column_setitem_mono, has_column_app_l.
    unfold has_column in Hpub2.
    destruct (column "publishedAt" df2); [|done].
    apply bind_Ok in Hdates as (parsed & _ & [= <-]).
    repeat (apply elem_of_cons in Hc as [->|Hc]);
      [..|by apply elem_of_nil in Hc].
    + by do 2 apply has_column_setitem_mono; apply has_column_setitem.
    + by apply has_column_setitem_mono, has_column_setitem.
    + apply has_column_setitem.
  - intros c s Hc Hs. rewrite Hkeep.
    + subst df2. rewrite column_setitem_ne, column_app, Hs; [done|].
      intros <-. apply Hc. by apply (bool_decide_unpack _).
    + intros Hin. apply Hc. revert Hin. rewrite !elem_of_cons. tauto.
Qed.
End facts.
End TransformMore.

(** ** extract_news.py: the frame a successful call returns *)
Module ExtractMore.
Import PyFacts PandasFacts PandasMore extract_news.

Lemma bool_decide_ext_if {A} (P Q : Prop) `{Decision P, Decision Q} (x y : A) :
  (P ↔ Q) → (if bool_decide P then x else y) = (if bool_decide Q then x else y).
Proof. intros HPQ. by rewrite (bool_decide_ext P Q HPQ). Qed.

(** A frame built label by label. *)
Lemma column_labelled (g : string → Series) (labels : list string) c :
  column c ((λ k, (k, g k)) <$> labels)
  = if bool_decide (c ∈ labels) then Some (g c) else None.
Proof.
  induction labels as [|k labels IH]; [done|].
  rewrite fmap_cons. cbn [column].
  destruct (String.eqb_spec k c) as [->|Hne].
  - by rewrite bool_decide_eq_true_2 by left.
  - rewrite IH. apply bool_decide_ext_if. rewrite elem_of_cons.
    split; [by right | by intros [->|?]].
Qed.

Lemma first_seen_elem_of (seen labels : list string) k :
  k ∈ first_seen seen labels ↔ k ∈ labels ∧ k ∉ seen.
Proof.
  revert seen. induction labels as [|l labels IH]; intros seen; simpl.
  - split; [intros H | intros [H _]]; by apply elem_of_nil in H.
  - case_bool_decide as Hl.
    + rewrite IH. split.
      * intros [H1 H2]. split; [by right | done].
      * intros [[->|H1]%elem_of_cons H2]; done.
    + rewrite elem_of_cons, IH. split.
      * intros [->|[H1 H2]]; split; [by left | done | by right |].
        intros H. apply H2. by right.
      * intros [[->|H1]%elem_of_cons H2]; [by left|].
        destruct (decide (k = l)) as [->|Hne]; [by left | right].
        split; [done|]. by intros [?|?]%elem_of_cons.
Qed.

Lemma dict_get_Some_key key (fields : list (string * json)) :
  is_Some (dict_get key fields) ↔ key ∈ fields.*1.
Proof.
  induction fields as [|[k v] fields IH]; simpl.
  - split; [by intros [? ?] | intros H; by apply elem_of_nil in H].
  - destruct (String.eqb_spec k key) as [->|Hne].
    + split; [intros _; by left | by eauto].
    + rewrite IH, elem_of_cons. simpl. split; [by right | by intros [?|?]].
Qed.

Lemma len_from_records (records : list (list (string * json))) :
  from_records records ≠ [] → len (from_records records) = length records.
Proof.
  unfold from_records. destruct (first_seen _ _) as [|k labels]; [done|].
  intros _. rewrite fmap_cons. cbn [len]. by rewrite length_fmap.
Qed.

Lemma rectangular_from_records (records : list (list (string * json))) :
  rectangular (from_records records) = true.
Proof.
  apply rectangular_Forall. unfold from_records.
  destruct (first_seen _ _) as [|k labels]; [done|].
  rewrite fmap_cons. cbn [len]. rewrite length_fmap.
  constructor; [cbn [snd]; by rewrite length_fmap|].
  apply Forall_fmap, Forall_forall. intros l _. cbn. by rewrite length_fmap.
Qed.

Section facts.
Variable requests_get : string → list (string * string) → result response.
Variable DataFrame_other : json → result DataFrame.
Variable parse_datetime : cell → option Z.
Variable strftime : Z → string.
Variable API_KEY : option string.
Variable now : Z.

Local Abbreviation fetch :=
  (fetch requests_get DataFrame_other parse_datetime strftime API_KEY now).
Local Abbreviation extract_financial_news :=
  (extract_financial_news requests_get DataFrame_other parse_datetime
     strftime API_KEY now).
Local Abbreviation request_params := (request_params strftime API_KEY now).
Local Abbreviation DataFrame_of := (DataFrame_of DataFrame_other).

(** A frame that is not the empty one comes from the end of the [try]. *)
Lemma extract_financial_news_built keywords days_back page_size (df : DataFrame) :
  extract_financial_news keywords days_back page_size = Ok df →
  df = []
  ∨ ∃ r data articles df0 source published parsed,
      requests_get url (request_params keywords days_back page_size) = Ok r
      ∧ body r = Ok data
      ∧ getitem data "articles" = Ok articles
      ∧ DataFrame_of articles = Ok df0
      ∧ empty df0 = false
      ∧ column "source" df0 = Some source
      ∧ column "publishedAt" (setitem "source_name" (source_name <$> source) df0)
        = Some published
      ∧ to_datetime parse_datetime published = Ok parsed
      ∧ df = (let df1 := setitem "source_name" (source_name <$> source) df0 in
              let df2 := setitem "publishedAt" parsed df1 in
              setitem "extracted_at" (replicate (len df2) (Time now)) df2).
Proof.
  unfold extract_news.extract_financial_news.
  destruct (fetch keywords days_back page_size) as [df'|e] eqn:Hfetch;
    [|destruct e; intros [= <-]; by left].
  intros [= ->]. unfold extract_news.fetch in Hfetch.
  apply bind_Ok in Hfetch as (r & Hr & Hfetch).
  apply bind_Ok in Hfetch as (_ & _ & Hfetch).
  apply bind_Ok in Hfetch as (data & Hdata & Hfetch).
  apply bind_Ok in Hfetch as (api_status & _ & Hfetch).
  case_bool_decide; [|injection Hfetch as <-; by left].
  apply bind_Ok in Hfetch as (articles & Harticles & Hfetch).
  apply bind_Ok in Hfetch as (df0 & Hdf0 & Hfetch).
  destruct (empty df0) eqn:Hempty; simpl in Hfetch;
    [injection Hfetch as <-; by left|].
  apply bind_Ok in Hfetch as (source & Hsource & Hfetch).
  apply bind_Ok in Hfetch as (published & Hpublished & Hfetch).
  apply bind_Ok in Hfetch as (parsed & Hparsed & [= <-]).
  unfold getcol in Hsource, Hpublished.
  destruct (column "source" df0) as [source'|] eqn:Hs; [|done].
  injection Hsource as ->.
  destruct (column "publishedAt" _) as [published'|] eqn:Hp; [|done].
  injection Hpublished as ->.
  right. exists r, data, articles, df0, source, published, parsed.
  by split_and!.
Qed.

(** X14. A frame the extractor returns is the empty one, or it has these
    four columns: source as the API gave it, source_name computed from it
    cell by cell, publishedAt holding timestamps and nulls only, and
    extracted_at holding the time of the call in every row. *)
Theorem extract_financial_news_columns keywords days_back page_size (df : DataFrame) :
  extract_financial_news keywords days_back page_size = Ok df →
  df = []
  ∨ ∃ source published,
      column "source" df = Some source
      ∧ column "source_name" df = Some (source_name <$> source)
      ∧ column "publishedAt" df = Some published
      ∧ Forall (λ c, c = Null ∨ ∃ t, c = Time t) published
      ∧ column "extracted_at" df = Some (replicate (len df) (Time now)).
Proof.
  intros [->|(r & data & articles & df0 & source & published & parsed & _ & _
              & _ & _ & _ & Hsource & _ & Hparsed & ->)]%extract_financial_news_built;
    [by left|].
  right. exists source, parsed. cbv zeta. split_and!.
  - by rewrite !column_setitem_ne by done.
  - by rewrite !column_setitem_ne, column_setitem_eq by done.
  - by rewrite column_setitem_ne, column_setitem_eq by done.
  - by eapply to_datetime_cells.
  - rewrite len_setitem_replicate by apply TransformFacts.setitem_not_nil.
    apply column_setitem_eq.
Qed.

(** X15. When the API answers with a list of JSON objects, a frame that
    is not the empty one has one row per article and every column as long;
    each key of an article is a column, and a column other than the three
    the extractor writes holds the articles' values for its key, a null
    where an article lacks it. *)
Theorem extract_financial_news_rows keywords days_back page_size r data items
    records (df : DataFrame) :
  requests_get url (request_params keywords days_back page_size) = Ok r →
  body r = Ok data →
  getitem data "articles" = Ok (JArr items) →
  mapM as_record items = Some records →
  extract_financial_news keywords days_back page_size = Ok df →
  df ≠ [] →
  len df = length records
  ∧ rectangular df = true
  ∧ (∀ record k, record ∈ records → k ∈ record.*1 → has_column k df = true)
  ∧ (∀ k s, k ∉ ["source_name"; "publishedAt"; "extracted_at"] →
       column k df = Some s →
       s = (λ record, from_option cell_of_json Null (dict_get k record)) <$> records).
Proof.
  intros Hr Hdata Hitems Hrecords
    [->|(r' & data' & articles & df0 & source & published & parsed & Hr' & Hdata'
         & Harticles & Hdf0 & Hempty & Hsource & Hpublished & Hparsed & ->)]
      %extract_financial_news_built Hne; [done|].
  clear Hne. rewrite Hr in Hr'. injection Hr' as <-.
  rewrite Hdata in Hdata'. injection Hdata' as <-.
  rewrite Hitems in Harticles. injection Harticles as <-.
  unfold extract_news.DataFrame_of in Hdf0. rewrite Hrecords in Hdf0.
  injection Hdf0 as <-. cbv zeta.
  set (df0 := from_records records) in *.
  set (df1 := setitem "source_name" (source_name <$> source) df0) in *.
  set (df2 := setitem "publishedAt" parsed df1).
  set (n := length records).
  assert (H0 : Forall (λ kv, length kv.2 = n) df0).
  { unfold n. rewrite <-(len_from_records records).
    - apply rectangular_Forall, rectangular_from_records.
    - intros Hnil. fold df0 in Hnil. by rewrite Hnil in Hempty. }
  assert (H1 : Forall (λ kv, length kv.2 = n) df1).
  { apply Forall_length_setitem; [|done].
    rewrite length_fmap. eauto using Forall_length_column. }
  assert (H2 : Forall (λ kv, length kv.2 = n) df2).
  { apply Forall_length_setitem; [|done].
    rewrite (mapM_result_length _ _ _ Hparsed). eauto using Forall_length_column. }
  assert (Hlen2 : len df2 = n).
  { apply TransformFacts.len_Forall; [apply TransformFacts.setitem_not_nil | done]. }
  rewrite Hlen2.
  assert (H3 : Forall (λ kv, length kv.2 = n)
                 (setitem "extracted_at" (replicate n (Time now)) df2)).
  { apply Forall_length_setitem; [apply length_replicate | done]. }
  assert (Hlen3 : len (setitem "extracted_at" (replicate n (Time now)) df2) = n).
  { apply TransformFacts.len_Forall; [apply TransformFacts.setitem_not_nil | done]. }
  split_and!.
  - done.
  - apply rectangular_Forall. by rewrite Hlen3.
  - intros record k Hrecord Hk.
    do 3 apply has_column_setitem_mono.
    unfold has_column, df0, from_records. rewrite (column_labelled
      (λ k, (λ r, from_option cell_of_json Null (dict_get k r)) <$> records)).
    rewrite bool_decide_eq_true_2; [done|].
    apply first_seen_elem_of. split; [|by intros ?%elem_of_nil].
    apply list_elem_of_bind. eauto.
  - intros k s Hk. rewrite !not_elem_of_cons in Hk.
    destruct Hk as (Hk1 & Hk2 & Hk3 & _).
    unfold df2, df1, df0, from_records.
    rewrite !column_setitem_ne by done. rewrite (column_labelled
      (λ k, (λ r, from_option cell_of_json Null (dict_get k r)) <$> records)).
    case_bool_decide; [by intros [= <-] | done].
Qed.

(** X16. Validating a frame the extractor returned leaves that frame as it
    is: its publishedAt column holds timestamps already, so what check 3
    stores back is what was there. *)
Theorem validate_news_data_keeps_extracted_frame (parse : cell → option Z)
    (today : Z) keywords days_back page_size (df : DataFrame) :
  extract_financial_news keywords days_back page_size = Ok df →
  (validate_data.validate_news_data parse today df).1 = df.
Proof.
  intros Hdf. rewrite ValidateFacts.validate_news_data_caller_frame.
  destruct (empty df) eqn:Hempty; [done|].
  destruct (validate_data.run_checks parse today df) as [df1 r] eqn:Hchecks.
  apply ValidateFacts.run_checks_frame in Hchecks
    as [->|(published & parsed & Hcol & Hparsed & ->)]; [done|].
  simpl. apply setitem_same. rewrite Hcol. f_equal.
  apply extract_financial_news_built in Hdf
    as [->|(r' & data & articles & df0 & source & published' & parsed' & _ & _
            & _ & _ & _ & _ & _ & Hparsed' & ->)]; [done|].
  cbv zeta in Hcol.
  rewrite column_setitem_ne, column_setitem_eq in Hcol by done.
  injection Hcol as <-.
  apply to_datetime_cells in Hparsed'.
  rewrite (ValidateFacts.to_datetime_timestamps parse _ Hparsed') in Hparsed.
  by injection Hparsed.
Qed.
End facts.
End ExtractMore.

(** ** load_to_database.py: what a load leaves in the database *)
Module LoadMore.
Import PyFacts PandasFacts PandasMore load_to_database.

Lemma length_zip_rows n (cols : list Series) :
  Forall (λ s, length s = n) cols → length (zip_rows n cols) = n.
Proof.
  induction 1 as [|s cols Hs _ IH]; simpl; [apply length_replicate|].
  rewrite length_zip_with. lia.
Qed.

Lemma project_cons c labels (df : DataFrame) :
  project (c :: labels) df
  = match column c df with
    | Some s => (c, s) :: project labels df
    | None => project labels df
    end.
Proof. unfold project. simpl. by destruct (column c df). Qed.

Lemma length_project labels (df : DataFrame) :
  length (project labels df) ≤ length labels.
Proof.
  induction labels as [|c labels IH]; [done|]. rewrite project_cons.
  destruct (column c df); simpl; lia.
Qed.

(** A projection as long as its list of labels found every label. *)
Lemma project_full labels (df : DataFrame) :
  length (project labels df) = length labels →
  columns (project labels df) = labels
  ∧ Forall (λ c, has_column c df = true) labels.
Proof.
  induction labels as [|c labels IH]; [done|]. rewrite project_cons.
  unfold has_column at 1. pose proof (length_project labels df) as Hle.
  destruct (column c df) as [s|] eqn:Hc; simpl; [|lia].
  intros [= Hlen]. destruct (IH Hlen) as [Hcols Hall]. split.
  - unfold columns in *. simpl. by rewrite Hcols.
  - constructor; [|done]. unfold has_column. by rewrite Hc.
Qed.

Lemma project_Forall n labels (df : DataFrame) :
  Forall (λ kv, length kv.2 = n) df →
  Forall (λ kv, length kv.2 = n) (project labels df).
Proof.
  intros Hall. induction labels as [|c labels IH]; [constructor|].
  rewrite project_cons. destruct (column c df) as [s|] eqn:Hc; [|done].
  constructor; [|done]. simpl. eauto using Forall_length_column.
Qed.

Section facts.
Variable parse_datetime : cell → option Z.
Variable cast_row : list cell → option (list cell).
Variable now : Z.

Local Abbreviation prepare := (prepare parse_datetime now).
Local Abbreviation load_to_duckdb := (load_to_duckdb parse_datetime cast_row now).

(** The frame that is inserted is a projection of the input with, at
    most, a stamp added and its dates truncated. *)
Lemma prepare_inv (df d : DataFrame) :
  prepare df = Ok d →
  ∃ df', d = project table_columns df'
         ∧ (∀ c, c ≠ "extracted_at" → has_column c df' = has_column c df)
         ∧ (df ≠ [] → Forall (λ kv, length kv.2 = len df) df →
            Forall (λ kv, length kv.2 = len df) df').
Proof.
  unfold load_to_database.prepare. cbv zeta. generalize table_columns.
  intros labels.
  set (stamped := if has_column "extracted_at" df then df
                  else setitem "extracted_at" (replicate (len df) (Time now)) df).
  assert (Hhas : ∀ c, c ≠ "extracted_at" → has_column c stamped = has_column c df).
  { intros c Hc. unfold stamped. destruct (has_column "extracted_at" df); [done|].
    by apply has_column_setitem_ne. }
  assert (Hlen : Forall (λ kv, length kv.2 = len df) df →
                 Forall (λ kv, length kv.2 = len df) stamped).
  { intros Hall. unfold stamped. destruct (has_column "extracted_at" df); [done|].
    apply Forall_length_setitem; [apply length_replicate | done]. }
  intros (df' & Hdf' & [= <-])%bind_Ok. exists df'. split; [reflexivity|].
  destruct (column "date" stamped) as [dates|] eqn:Hdates.
  - apply bind_Ok in Hdf' as (parsed & Hparsed & [= <-]). split.
    + intros c Hc. rewrite <-(Hhas c Hc).
      destruct (decide (c = "date")) as [->|Hne].
      * rewrite has_column_setitem. unfold has_column.
        by rewrite Hdates.
      * by apply has_column_setitem_ne.
    + intros _ Hall. apply Forall_length_setitem; [|by apply Hlen].
      rewrite length_fmap, (mapM_result_length _ _ _ Hparsed).
      eauto using Forall_length_column.
  - injection Hdf' as <-. split; [done | by intros _].
Qed.

(** A load that reports success inserted a frame of thirteen columns. *)
Lemma load_to_duckdb_loaded (df : DataFrame) (db db1 : database) :
  load_to_duckdb df db = (db1, true) →
  ∃ d rows,
    prepare df = Ok d
    ∧ length d = length table_columns
    ∧ db1 = Some rows
    ∧ mapM cast_row (zip_rows (len d) d.*2) = Some rows.
Proof.
  unfold load_to_database.load_to_duckdb. destruct (empty df); [done|].
  destruct (prepare df) as [d|e]; run_result; [|done].
  unfold insert_select. destruct (length d =? _) eqn:Hlen; [|done].
  destruct (mapM cast_row _) as [rows|] eqn:Hrows; [|done].
  intros [= <-]. apply Nat.eqb_eq in Hlen. eauto 10.
Qed.

Lemma load_to_duckdb_failed (df : DataFrame) (db db1 : database) :
  empty df = false → load_to_duckdb df db = (db1, false) → db1 = Some [].
Proof.
  unfold load_to_database.load_to_duckdb. intros ->.
  destruct (_ ≫= _); by intros [= <-].
Qed.

(** X17. A load of a table that is not empty never keeps what the
    database held. Either it reports failure and leaves the table
    news_sentiment existing and empty, or it reports success: then the
    input had the twelve columns of the table other than extracted_at,
    the frame inserted has the thirteen table columns in the table's
    order, and the table holds one row per row of the input. *)
Theorem load_to_duckdb_outcome (df : DataFrame) (db db1 : database) (ok : bool) :
  rectangular df = true →
  empty df = false →
  load_to_duckdb df db = (db1, ok) →
  (ok = false ∧ db1 = Some [])
  ∨ (ok = true
     ∧ (∀ c, c ∈ table_columns → c ≠ "extracted_at" → has_column c df = true)
     ∧ ∃ d rows,
         prepare df = Ok d
         ∧ columns d = table_columns
         ∧ db1 = Some rows
         ∧ length rows = len df).
Proof.
  intros Hrect Hempty Hload. destruct ok.
  2:{ left. split; [done|]. by eapply load_to_duckdb_failed. }
  right. split; [done|].
  apply load_to_duckdb_loaded in Hload as (d & rows & Hd & Hlen & -> & Hrows).
  destruct (prepare_inv _ _ Hd) as (df' & -> & Hhas & Hall).
  destruct (project_full _ _ Hlen) as [Hcols Hfound]. split.
  - intros c Hc Hne. rewrite <-(Hhas c Hne).
    by apply (proj1 (Forall_forall _ _) Hfound).
  - exists (project table_columns df'), rows. split_and!; try done.
    assert (Hdf : df ≠ []) by (by intros ->).
    apply rectangular_Forall in Hrect. specialize (Hall Hdf Hrect).
    pose proof (project_Forall (len df) table_columns df' Hall) as Hproj.
    assert (Hlend : len (project table_columns df') = len df).
    { apply TransformFacts.len_Forall; [|done]. intros Hnil.
      by rewrite Hnil in Hlen. }
    rewrite Hlend in Hrows. apply length_mapM in Hrows. rewrite <-Hrows.
    apply length_zip_rows, Forall_fmap. by apply (Forall_impl _ _ _ Hproj).
Qed.

(** X18. A table that is not empty and lacks one of the twelve columns
    is not loaded: the call returns False, and the table news_sentiment
    is left existing and empty, whatever it held before. *)
Theorem load_to_duckdb_missing_column (df : DataFrame) (db : database) c :
  empty df = false →
  c ∈ table_columns → c ≠ "extracted_at" → has_column c df = false →
  load_to_duckdb df db = (Some [], false).
Proof.
  intros Hempty Hc Hne Hmissing.
  destruct (load_to_duckdb df db) as [db1 ok] eqn:Hload. destruct ok.
  - apply load_to_duckdb_loaded in Hload as (d & rows & Hd & Hlen & _).
    destruct (prepare_inv _ _ Hd) as (df' & -> & Hhas & _).
    destruct (project_full _ _ Hlen) as [_ Hfound].
    rewrite <-(Hhas c Hne) in Hmissing.
    rewrite (proj1 (Forall_forall _ _) Hfound c Hc) in Hmissing. done.
  - f_equal. by eapply load_to_duckdb_failed.
Qed.
End facts.
End LoadMore.

(** ** run_pipeline.py: every run, whatever the stages do *)
Module PipelineMore.
Import PyFacts PandasFacts PandasMore run_pipeline.

(** Split on what the next stage answers. *)
Ltac stage :=
  match goal with
  | |- context [match ?x with Ok _ => _ | Raise _ => _ end] => destruct x eqn:?
  | |- context [if empty ?df then _ else _] => destruct (empty df) eqn:?
  | |- context [if negb ?b then _ else _] => destruct b
  | |- context [let '(_, _) := ?x in _] => destruct x eqn:?
  end; simpl.

Ltac stages :=
  unfold run_pipeline.run_full_pipeline, validate_and_after, transform_and_after,
    run_pipeline.load_and_finish, mbind, run_bind, mret, run_ret, invoke,
    result_bind; simpl;
  repeat stage.

(** Find which step a recorded outcome belongs to. *)
Ltac recorded H :=
  repeat first
    [rewrite lookup_empty in H; discriminate
    |apply lookup_insert_Some in H as [[? ?]|[? H]]; simplify_eq; try done].

Section facts.
Variable extract_financial_news : nat → nat → result DataFrame.
Variable save_raw_data : DataFrame → result ().
Variable validate_news_data : DataFrame → result (DataFrame * validate_data.quality_report).
Variable save_quality_report : validate_data.quality_report → result ().
Variable add_sentiment_analysis : DataFrame → result DataFrame.
Variable save_transformed_data : DataFrame → result ().
Variable format_mean : DataFrame → result string.
Variable load_to_duckdb : DataFrame → result bool.
Variable started finished : Z.

Local Abbreviation run_full_pipeline :=
  (run_full_pipeline extract_financial_news save_raw_data validate_news_data
     save_quality_report add_sentiment_analysis save_transformed_data
     format_mean load_to_duckdb started finished).



(** X21. The step recorded for the loader tells the overall status:
    SUCCESS when it is recorded as a success, WARNING when it is recorded
    as a failure, FAILED when it is not recorded. Every step recorded is
    one of the four stages and starts with SUCCESS or FAILED; a run is
    FAILED exactly when a step before the load is recorded as a failure,
    and no run records two failures. *)
Theorem run_full_pipeline_steps days_back page_size :
  let st := (run_full_pipeline days_back page_size []).2 in
  (overall_status st = "SUCCESS"
   ↔ ∃ outcome, steps st !! "load" = Some outcome
                ∧ String.prefix "SUCCESS" outcome = true)
  ∧ (overall_status st = "WARNING"
     ↔ ∃ outcome, steps st !! "load" = Some outcome
                  ∧ String.prefix "FAILED" outcome = true)
  ∧ (overall_status st = "FAILED" ↔ steps st !! "load" = None)
  ∧ (overall_status st = "FAILED"
     ↔ ∃ step outcome, step ≠ "load" ∧ steps st !! step = Some outcome
                       ∧ String.prefix "FAILED" outcome = true)
  ∧ (∀ step outcome, steps st !! step = Some outcome →
       step ∈ ["extract"; "validate"; "transform"; "load"]
       ∧ (String.prefix "SUCCESS" outcome = true
          ∨ String.prefix "FAILED" outcome = true))
  ∧ (∀ step1 step2 outcome1 outcome2,
       steps st !! step1 = Some outcome1 → String.prefix "FAILED" outcome1 = true →
       steps st !! step2 = Some outcome2 → String.prefix "FAILED" outcome2 = true →
       step1 = step2).
Proof.
  cbv zeta. stages.
  all: split_and!.
  all: try (split;
    [first [done
           |intros _; eexists; split; [apply lookup_insert_eq | reflexivity]
           |intros _; rewrite ?lookup_insert_ne by done; apply lookup_empty
           |intros _; eexists _, _;
            (split; [|split; [apply lookup_insert_eq | reflexivity]]); done]
    |first [done
           |rewrite lookup_insert_eq; done
           |intros (outcome & Ho & Hp); recorded Ho; simpl in Hp; done
           |intros (step & outcome & Hne & Ho & Hp); recorded Ho; simpl in Hp; done]]).
  all: try (intros step outcome Ho; recorded Ho;
            (split; [rewrite !elem_of_cons; tauto | simpl; auto])).
  all: intros step1 step2 outcome1 outcome2 Ho1 Hp1 Ho2 Hp2;
    recorded Ho1; recorded Ho2; simpl in *; done.
Qed.
End facts.
End PipelineMore.

(** *** More worked examples *)
Module MoreExamples.
Import Samples MoreSamples.
Import validate_data validate_data_report transform_sentiment extract_news
  load_to_database run_pipeline.
Import ValidateMore ValidateReport ReportFileFacts TransformMore ExtractMore
  LoadMore PipelineMore.

Lemma validate_news_data_needs_columns_witness :
  ∃ df' out rep,
    empty sample_raw = false
    ∧ validate_news_data sample_parse sample_now sample_raw = (df', Ok (out, rep))
    ∧ has_column "title" sample_raw = true
    ∧ has_column "description" sample_raw = true
    ∧ has_column "publishedAt" sample_raw = true.
Proof.
  eexists _, _, _. split; [reflexivity|].
  split; [vm_compute; reflexivity|].
  eapply (validate_news_data_needs_columns sample_parse sample_now sample_raw);
    [reflexivity | vm_compute; reflexivity].
Defined.

Lemma validate_news_data_missing_key_witness :
  empty sample_no_title = false
  ∧ column "title" sample_no_title = None
  ∧ ∃ key,
      validate_news_data sample_parse sample_now sample_no_title
      = (sample_no_title, Raise (KeyError key))
      ∧ key ∈ ["title"; "publishedAt"].
Proof.
  split; [reflexivity|]. split; [reflexivity|].
  apply (validate_news_data_missing_key sample_parse sample_now sample_no_title);
    [reflexivity | by left].
Defined.


Lemma validate_news_data_counts_witness :
  ∃ df' out rep,
    empty sample_raw = false
    ∧ validate_news_data sample_parse sample_now sample_raw = (df', Ok (out, rep))
    ∧ ∃ removed percentage,
        initial_records rep = Some (len sample_raw)
        ∧ final_records rep = Some (len out)
        ∧ removed_records rep = Some removed
        ∧ removal_percentage rep = Some percentage
        ∧ (Z.of_nat (len sample_raw) = Z.of_nat (len out) + removed)%Z
        ∧ (0 ≤ removed)%Z
        ∧ (Qc_of_Z 0 ≤ percentage)%Qc ∧ (percentage ≤ Qc_of_Z 100)%Qc.
Proof.
  eexists _, _, _. split; [reflexivity|].
  split; [vm_compute; reflexivity|].
  eapply (validate_news_data_counts sample_parse sample_now sample_raw);
    [reflexivity | vm_compute; reflexivity].
Defined.

Lemma clean_idempotent_witness :
  ∃ out,
    rectangular sample_raw = true
    ∧ clean sample_raw = Ok out
    ∧ clean out = Ok out.
Proof.
  eexists. split; [reflexivity|].
  split; [vm_compute; reflexivity|].
  eapply (clean_idempotent sample_raw); [reflexivity | vm_compute; reflexivity].
Defined.

Lemma validate_news_data_failed_iff_empty_witness :
  ∃ df' out rep,
    validate_news_data sample_parse sample_now sample_raw = (df', Ok (out, rep))
    ∧ (empty out = true ↔ status rep = "FAILED").
Proof.
  eexists _, _, _. split; [vm_compute; reflexivity|].
  eapply (validate_news_data_failed_iff_empty sample_parse sample_now sample_raw).
  vm_compute; reflexivity.
Defined.

Lemma validate_news_data_freshness_bounds_witness :
  ∃ df' out rep checked fresh,
    validate_news_data sample_parse sample_now sample_unparsed = (df', Ok (out, rep))
    ∧ checks rep = Some checked
    ∧ freshness checked = Some fresh
    ∧ ∃ published,
        column "publishedAt" df' = Some published
        ∧ Forall (λ c, c = Null ∨ ∃ t, c = Time t) published
        ∧ oldest fresh ∈ timestamps published
        ∧ newest fresh ∈ timestamps published
        ∧ (∀ t, t ∈ timestamps published → (oldest fresh ≤ t ≤ newest fresh)%Z)
        ∧ span_days fresh = ((sample_now - oldest fresh) `div` microseconds_per_day)%Z.
Proof.
  eexists _, _, _, _, _. split; [vm_compute; reflexivity|].
  split; [reflexivity|]. split; [reflexivity|].
  eapply (validate_news_data_freshness_bounds sample_parse sample_now sample_unparsed);
    [vm_compute; reflexivity | reflexivity | reflexivity].
Defined.

Lemma validate_news_data_check_counts_witness :
  ∃ df' out rep checked,
    rectangular sample_raw = true
    ∧ validate_news_data sample_parse sample_now sample_raw = (df', Ok (out, rep))
    ∧ checks rep = Some checked
    ∧ (∀ field, is_Some (missing_values checked !! field) ↔ field ∈ critical_fields)
    ∧ (∀ field n, missing_values checked !! field = Some n →
         n ≤ len sample_raw ∧ (has_column field sample_raw = false → n = len sample_raw))
    ∧ duplicates checked < len sample_raw
    ∧ short_titles (content_quality checked) ≤ len sample_raw
    ∧ short_descriptions (content_quality checked) ≤ len sample_raw.
Proof.
  eexists _, _, _, _. split; [reflexivity|].
  split; [vm_compute; reflexivity|]. split; [reflexivity|].
  eapply (validate_news_data_check_counts sample_parse sample_now sample_raw);
    [reflexivity | vm_compute; reflexivity | reflexivity].
Defined.

Lemma save_quality_report_of_empty_input_witness :
  ∃ df' out rep,
    empty sample_no_rows = true
    ∧ validate_news_data sample_parse sample_now sample_no_rows = (df', Ok (out, rep))
    ∧ sample_open ("../data/" +:+ "quality_report.txt") = None
    ∧ sample_save_quality_report rep "quality_report.txt" ∅
      = (<["../data/" +:+ "quality_report.txt" := report_header]> ∅,
         Raise (KeyError "timestamp")).
Proof.
  eexists _, _, _. split; [reflexivity|].
  split; [vm_compute; reflexivity|]. split; [reflexivity|].
  eapply (save_quality_report_of_empty_input sample_parse sample_now sample_open
            sample_isoformat sample_format_1f sample_str_missing
            sample_str_freshness sample_str_content sample_no_rows);
    [reflexivity | vm_compute; reflexivity | reflexivity].
Defined.

Lemma save_quality_report_of_run_witness :
  ∃ df' out rep,
    empty sample_raw = false
    ∧ validate_news_data sample_parse sample_now sample_raw = (df', Ok (out, rep))
    ∧ ((∃ msg, sample_open ("../data/" +:+ "quality_report.txt") = Some msg
               ∧ (sample_save_quality_report rep "quality_report.txt" ∅).2
                 = Raise (OSError msg)
               ∧ (sample_save_quality_report rep "quality_report.txt" ∅).1 = ∅)
       ∨ (sample_open ("../data/" +:+ "quality_report.txt") = None
          ∧ (sample_save_quality_report rep "quality_report.txt" ∅).2 = Ok ()
          ∧ (∀ path, path ≠ "../data/" +:+ "quality_report.txt" →
               (sample_save_quality_report rep "quality_report.txt" ∅).1 !! path
               = (∅ : files) !! path)
          ∧ ∃ body,
              (sample_save_quality_report rep "quality_report.txt" ∅).1
                !! ("../data/" +:+ "quality_report.txt")
              = Some (report_header +:+ "Timestamp: " +:+ sample_isoformat sample_now
                      +:+ nl +:+ "Status: " +:+ status rep +:+ nl +:+ nl +:+ body))).
Proof.
  eexists _, _, _. split; [reflexivity|].
  split; [vm_compute; reflexivity|].
  eapply (save_quality_report_of_run sample_parse sample_now sample_open
            sample_isoformat sample_format_1f sample_str_missing
            sample_str_freshness sample_str_content sample_raw);
    [reflexivity | vm_compute; reflexivity | apply surjective_pairing].
Defined.

Lemma categorize_sentiment_monotone_witness :
  (Q2Qc (1 # 10) ≤ Q2Qc (3 # 10))%Qc
  ∧ (categorize_sentiment (Q2Qc (1 # 10)) = "positive" →
     categorize_sentiment (Q2Qc (3 # 10)) = "positive")
  ∧ (categorize_sentiment (Q2Qc (3 # 10)) = "negative" →
     categorize_sentiment (Q2Qc (1 # 10)) = "negative").
Proof.
  split; [by vm_compute|].
  apply (categorize_sentiment_monotone (Q2Qc (1 # 10)) (Q2Qc (3 # 10))).
  by vm_compute.
Defined.

Lemma add_sentiment_analysis_shape_witness :
  ∃ out,
    rectangular sample_unparsed = true
    ∧ empty sample_unparsed = false
    ∧ add_sentiment_analysis sample_str sample_polarity sample_parse sample_unparsed = Ok out
    ∧ len out = len sample_unparsed ∧ empty out = false ∧ rectangular out = true
    ∧ (∀ c, has_column c sample_unparsed = true → has_column c out = true)
    ∧ (∀ c, c ∈ ["sentiment_compound"; "sentiment_positive"; "sentiment_negative";
                 "sentiment_neutral"; "sentiment_label"] →
            has_column c out = true)
    ∧ (has_column "publishedAt" sample_unparsed = true →
       ∀ c, c ∈ ["date"; "hour"; "day_of_week"] → has_column c out = true)
    ∧ (∀ c s, c ∉ ["publishedAt"; "date"; "hour"; "day_of_week"; "sentiment_label"] →
              column c sample_unparsed = Some s → column c out = Some s).
Proof.
  eexists. split; [reflexivity|]. split; [reflexivity|].
  split; [vm_compute; reflexivity|].
  eapply (add_sentiment_analysis_shape sample_str sample_polarity sample_parse
            sample_unparsed);
    [reflexivity | reflexivity | vm_compute; reflexivity].
Defined.

Lemma extract_financial_news_columns_witness :
  ∃ df,
    sample_extract sample_api_ok 7 50 = Ok df
    ∧ (df = []
       ∨ ∃ source published,
           column "source" df = Some source
           ∧ column "source_name" df = Some (source_name <$> source)
           ∧ column "publishedAt" df = Some published
           ∧ Forall (λ c, c = Null ∨ ∃ t, c = Time t) published
           ∧ column "extracted_at" df = Some (replicate (len df) (Time sample_now))).
Proof.
  eexists. split; [vm_compute; reflexivity|].
  eapply (extract_financial_news_columns
            (λ _ _, Ok sample_api_ok)
            (λ _, Raise (ValueError "DataFrame constructor not properly called!"))
            sample_parse sample_strftime (Some "key") sample_now
            ["stocks"; "market"; "finance"; "economy"] 7 50).
  vm_compute; reflexivity.
Defined.

Lemma extract_financial_news_rows_witness :
  ∃ data items records df,
    body sample_api_ok = Ok data
    ∧ getitem data "articles" = Ok (JArr items)
    ∧ mapM as_record items = Some records
    ∧ sample_extract sample_api_ok 7 50 = Ok df
    ∧ df ≠ []
    ∧ len df = length records
    ∧ rectangular df = true
    ∧ (∀ record k, record ∈ records → k ∈ record.*1 → has_column k df = true)
    ∧ (∀ k s, k ∉ ["source_name"; "publishedAt"; "extracted_at"] →
         column k df = Some s →
         s = (λ record, from_option cell_of_json Null (dict_get k record)) <$> records).
Proof.
  eexists _, _, _, _. split; [reflexivity|]. split; [reflexivity|].
  split; [reflexivity|]. split; [vm_compute; reflexivity|].
  split; [discriminate|].
  eapply (extract_financial_news_rows
            (λ _ _, Ok sample_api_ok)
            (λ _, Raise (ValueError "DataFrame constructor not properly called!"))
            sample_parse sample_strftime (Some "key") sample_now
            ["stocks"; "market"; "finance"; "economy"] 7 50 sample_api_ok);
    [reflexivity | reflexivity | reflexivity | reflexivity
    | vm_compute; reflexivity | discriminate].
Defined.

Lemma validate_news_data_keeps_extracted_frame_witness :
  ∃ df,
    sample_extract sample_api_ok 7 50 = Ok df
    ∧ (validate_news_data sample_parse sample_now df).1 = df.
Proof.
  eexists. split; [vm_compute; reflexivity|].
  eapply (validate_news_data_keeps_extracted_frame
            (λ _ _, Ok sample_api_ok)
            (λ _, Raise (ValueError "DataFrame constructor not properly called!"))
            sample_parse sample_strftime (Some "key") sample_now
            sample_parse sample_now
            ["stocks"; "market"; "finance"; "economy"] 7 50).
  vm_compute; reflexivity.
Defined.

Lemma load_to_duckdb_outcome_witness :
  ∃ db1 ok,
    rectangular sample_enriched = true
    ∧ empty sample_enriched = false
    ∧ load_to_duckdb sample_parse sample_cast sample_now sample_enriched None = (db1, ok)
    ∧ ((ok = false ∧ db1 = Some [])
       ∨ (ok = true
          ∧ (∀ c, c ∈ table_columns → c ≠ "extracted_at" →
                  has_column c sample_enriched = true)
          ∧ ∃ d rows,
              prepare sample_parse sample_now sample_enriched = Ok d
              ∧ columns d = table_columns
              ∧ db1 = Some rows
              ∧ length rows = len sample_enriched)).
Proof.
  eexists _, _. split; [reflexivity|]. split; [reflexivity|].
  split; [vm_compute; reflexivity|].
  eapply (load_to_duckdb_outcome sample_parse sample_cast sample_now sample_enriched None);
    [reflexivity | reflexivity | vm_compute; reflexivity].
Defined.

Lemma load_to_duckdb_missing_column_witness :
  empty sample_raw = false
  ∧ "source_name" ∈ table_columns
  ∧ bool_decide ("source_name" = "extracted_at") = false
  ∧ has_column "source_name" sample_raw = false
  ∧ load_to_duckdb sample_parse sample_cast sample_now sample_raw None
    = (Some [], false).
Proof.
  split; [reflexivity|]. split; [by apply (bool_decide_unpack _)|].
  split; [reflexivity|]. split; [reflexivity|].
  apply (load_to_duckdb_missing_column sample_parse sample_cast sample_now
           sample_raw None "source_name");
    [reflexivity | by apply (bool_decide_unpack _) | done | reflexivity].
Defined.

End MoreExamples.
